(** * Reconciliation of a complaints snapshot against the versioned store

    A shallow embedding of the update path of [main.py]: the window reader
    [get_entries_received_after_chosen_datetime], the latest-version
    resolver [leave_only_last_update_in_df], the three write stages
    [save_new_entries], [delete_disappeared_entries] and
    [update_changed_entries], and their driver [update_months_data].

    A pandas dataframe is a list of rows in index order; a Python [set] is a
    [gset] that is iterated through [elements]; the database table is the
    list of its rows in insertion order. *)

From stdpp Require Import base decidable option list gmap sets strings.
From Stdlib Require Import ZArith Lia Ascii.

Local Open Scope string_scope.
Local Open Scope list_scope.
Local Open Scope Z_scope.

#[local] Set Warnings "-clear-no-such-hyp".

(** ** Data model *)

(** A non-null cell of a business column.  A float is given by the text
    that Python prints for it. *)
Inductive Cell :=
  | CInt (n : Z)
  | CText (s : string)
  | CTime (t : Z)
  | CFloat (repr : string).

Global Instance Cell_eq_dec : EqDecision Cell.
Proof. solve_decision. Defined.

(** One row of the [complaints] table or of the csv.  [fields] maps the name
    of a business column to its value; a column that is NULL (NaN in pandas)
    has no entry.  [update_stamp] is [None] when the column is missing or
    NULL, as in the rows read from the csv. *)
Record Row := mkRow {
  complaint_id : Z;
  date_received : option Z;
  update_stamp : option Z;
  fields : gmap string Cell
}.

Global Instance Row_eq_dec : EqDecision Row.
Proof. solve_decision. Defined.

(** [df['complaint_id']] *)
Definition ids (df : list Row) : list Z := complaint_id <$> df.

(** [df['update_stamp'] = now] *)
Definition set_update_stamp (now : Z) (r : Row) : Row :=
  mkRow (complaint_id r) (date_received r) (Some now) (fields r).

(** [df.loc[:, df.columns != 'update_stamp']] on one row. *)
Definition without_update_stamp (r : Row) : Row :=
  mkRow (complaint_id r) (date_received r) None (fields r).

(** [df[['complaint_id', 'date_received']]] on one row: every other column
    is gone, so it is NULL once the row is in the table. *)
Definition id_and_date_only (r : Row) : Row :=
  mkRow (complaint_id r) (date_received r) None ∅.

(** The primary key of the table: [PRIMARY KEY (complaint_id, update_stamp)]. *)
Definition pk (r : Row) : Z * option Z := (complaint_id r, update_stamp r).

(** What the table gives back for a cell that was written to it.
    [create_main_table] declares an integer column INTEGER, a datetime column
    TIMESTAMP and every other column TEXT, so a float is held, and read, as
    its text. *)
Definition stored_cell (c : Cell) : Cell :=
  match c with
  | CFloat repr => CText repr
  | _ => c
  end.

(** A row as [pd.read_sql] returns it. *)
Definition stored_row (r : Row) : Row :=
  mkRow (complaint_id r) (date_received r) (update_stamp r) (stored_cell <$> fields r).

Definition is_float (c : Cell) : bool :=
  match c with
  | CFloat _ => true
  | _ => false
  end.

(** No business column of the row holds a float. *)
Definition float_free (r : Row) : Prop :=
  map_Forall (λ _ c, is_float c = false) (fields r).

Global Instance float_free_dec r : Decision (float_free r).
Proof. unfold float_free. apply _. Defined.

(** ** Pandas primitives *)

(** [df[mask]]: the rows at the positions where [mask] holds. *)
Fixpoint mask_rows {A} (mask : list bool) (df : list A) : list A :=
  match mask, df with
  | b :: mask', r :: df' =>
      if b then r :: mask_rows mask' df' else mask_rows mask' df'
  | _, _ => []
  end.

(** [series.isin(values)] *)
Definition isin (values : list Z) (series : list Z) : list bool :=
  (λ x, bool_decide (x ∈ values)) <$> series.

(** [series.duplicated()]: true at every occurrence of a value but its
    first. *)
Fixpoint duplicated_from (seen : list Z) (series : list Z) : list bool :=
  match series with
  | [] => []
  | x :: series' => bool_decide (x ∈ seen) :: duplicated_from (x :: seen) series'
  end.

Definition duplicated (series : list Z) : list bool := duplicated_from [] series.

(** Number of rows of [df] whose [complaint_id] is [x]. *)
Definition count_id (x : Z) (df : list Row) : nat :=
  length (filter (λ r, complaint_id r = x) df).

(** Number of rows of [df] equal to [r] on every column. *)
Definition count_row (r : Row) (df : list Row) : nat :=
  length (filter (λ r', r' = r) df).

(** [df.drop_duplicates(subset=['complaint_id'], keep=False)] *)
Definition drop_duplicates_complaint_id (df : list Row) : list Row :=
  filter (λ r, count_id (complaint_id r) df = 1%nat) df.

(** [df.drop_duplicates(keep=False)]: NaN cells compare equal here, which is
    equality of [fields]. *)
Definition drop_duplicates (df : list Row) : list Row :=
  filter (λ r, count_row r df = 1%nat) df.

(** [series.max()] on the [update_stamp] column; NaT cells are skipped and
    the maximum of no value is NaT. *)
Definition stamp_max (df : list Row) : option Z :=
  foldr (λ r acc,
           match update_stamp r, acc with
           | Some a, Some b => Some (Z.max a b)
           | Some a, None => Some a
           | None, _ => acc
           end) None df.

(** [series == value] on a timestamp cell: NaT equals nothing. *)
Definition stamp_eqb (a b : option Z) : bool :=
  match a, b with
  | Some x, Some y => bool_decide (x = y)
  | _, _ => false
  end.

(** [df.dropna(subset=['product'])] keeps the rows with a product. *)
Definition has_product (r : Row) : Prop := is_Some (fields r !! "product").

(** ** Latest-version resolver *)

Definition leave_only_last_update_in_df (df : list Row) : list Row :=
  let latest_updates := drop_duplicates_complaint_id df in
  let non_unique_ids := mask_rows (duplicated (ids df)) df in
  let non_unique_ids_set : gset Z := list_to_set (ids non_unique_ids) in
  foldl (λ latest_updates id,
           let this_id := filter (λ r, complaint_id r = id) df in
           latest_updates ++
             filter (λ r, stamp_eqb (update_stamp r) (stamp_max this_id) = true)
                    this_id)
        latest_updates (elements non_unique_ids_set).

(** ** The run: database, dataframes and console as state *)

Inductive Error :=
  | KeyError (column : string)
  | IntegrityError
  | DuplicateTable.

Inductive Result (A : Type) :=
  | Ok (a : A)
  | Raised (e : Error).
Arguments Ok {A} a.
Arguments Raised {A} e.

(** A dataframe object of the run: its rows and the two boolean columns
    that the stages add to it ([None]: the column does not exist). *)
Record DataFrame := mkDataFrame {
  rows : list Row;
  already_saved : option (list bool);
  was_removed : option (list bool)
}.

Definition frame_of (df : list Row) : DataFrame := mkDataFrame df None None.

(** The table [complaints], the two dataframe objects that
    [update_months_data] hands to every stage, and what was printed. *)
Record State := mkState {
  db : list Row;
  new_entries : DataFrame;
  entries_from_db : DataFrame;
  stdout : list string
}.

Definition M (A : Type) : Type := State → Result A * State.

Global Instance M_ret : MRet M := λ A a st, (Ok a, st).
Global Instance M_bind : MBind M := λ A B f m st,
  match m st with
  | (Ok a, st') => f a st'
  | (Raised e, st') => (Raised e, st')
  end.

Definition get_state : M State := λ st, (Ok st, st).
Definition raise {A} (e : Error) : M A := λ st, (Raised e, st).
Definition print (line : string) : M () := λ st,
  (Ok (), mkState (db st) (new_entries st) (entries_from_db st) (stdout st ++ [line])).
Definition set_new_entries (df : DataFrame) : M () := λ st,
  (Ok (), mkState (db st) df (entries_from_db st) (stdout st)).
Definition set_entries_from_db (df : DataFrame) : M () := λ st,
  (Ok (), mkState (db st) (new_entries st) df (stdout st)).

(** [df[column]] on a boolean column: a missing column raises. *)
Definition column {A} (name : string) (col : option A) : M A :=
  match col with
  | Some c => mret c
  | None => raise (KeyError name)
  end.

(** The table accepts [df] when no row has a NULL key column and no key
    repeats, neither inside [df] nor against a stored row. *)
Definition insert_ok (table df : list Row) : Prop :=
  Forall (λ r, is_Some (update_stamp r)) df ∧ NoDup (pk <$> df) ∧
  Forall (λ r, pk r ∉ pk <$> table) df.

Global Instance insert_ok_dec table df : Decision (insert_ok table df).
Proof. unfold insert_ok. apply _. Defined.

(** [df.to_sql('complaints', con=engine, if_exists='append', index=False)]:
    one transaction, so the rows are appended together or not at all.  [db]
    keeps the rows as they were handed over; the form in which the table
    holds their cells shows where the table is read, through [stored_row]. *)
Definition to_sql (df : list Row) : M () := λ st,
  if decide (insert_ok (db st) df)
  then (Ok (), mkState (db st ++ df) (new_entries st) (entries_from_db st) (stdout st))
  else (Raised IntegrityError, st).

(** [select * from complaints where date_received > date_time]; a NULL date
    satisfies no comparison. *)
Definition received_after (date_time : Z) (r : Row) : Prop :=
  match date_received r with
  | Some d => date_time < d
  | None => False
  end.

Global Instance received_after_dec date_time r : Decision (received_after date_time r).
Proof. unfold received_after. destruct (date_received r); apply _. Defined.

(** [pd.read_sql] of that query: the rows of the window, each as the table
    holds it. *)
Definition get_entries_received_after_chosen_datetime (date_time : Z) : M (list Row) :=
  st ← get_state;
  mret (stored_row <$> filter (received_after date_time) (db st)).

(** ** The three write stages

    [now] is what [pd.to_datetime('now')] returns in that call. *)

Definition save_new_entries (now : Z) : M () :=
  st ← get_state;
  let flags := isin (ids (rows (entries_from_db st))) (ids (rows (new_entries st))) in
  set_new_entries (mkDataFrame (rows (new_entries st)) (Some flags)
                               (was_removed (new_entries st)));;
  st ← get_state;
  saved ← column "already_saved" (already_saved (new_entries st));
  let df_to_save := mask_rows (negb <$> saved) (rows (new_entries st)) in
  let df_to_save := set_update_stamp now <$> df_to_save in
  to_sql df_to_save.

Definition delete_disappeared_entries (now : Z) : M () :=
  st ← get_state;
  let flags := negb <$> isin (ids (rows (new_entries st))) (ids (rows (entries_from_db st))) in
  set_entries_from_db (mkDataFrame (rows (entries_from_db st))
                                   (already_saved (entries_from_db st)) (Some flags));;
  st ← get_state;
  removed ← column "was_removed" (was_removed (entries_from_db st));
  let df_to_save := mask_rows removed (rows (entries_from_db st)) in
  let df_to_save := filter has_product df_to_save in
  let df_to_save := id_and_date_only <$> df_to_save in
  let df_to_save := set_update_stamp now <$> df_to_save in
  to_sql df_to_save.

Definition update_changed_entries (now : Z) : M () :=
  st ← get_state;
  saved ← column "already_saved" (already_saved (new_entries st));
  let new_entries := mask_rows saved (rows (new_entries st)) in
  let new_entries := set_update_stamp now <$> new_entries in
  removed ← column "was_removed" (was_removed (entries_from_db st));
  let df_to_save := new_entries ++ mask_rows (negb <$> removed) (rows (entries_from_db st)) in
  let df_to_save := drop_duplicates (without_update_stamp <$> df_to_save) in
  let updated_row_ids : gset Z := list_to_set (ids df_to_save) in
  let df_to_save := filter (λ r, complaint_id r ∈ updated_row_ids) new_entries in
  to_sql df_to_save.

(** ** The driver

    [csv] is the file as [pd.read_csv] yields it, chunk by chunk;
    [date_month_ago] is the cutoff computed from [dt.now()]. *)

Definition read_new_entries (csv : list (list Row)) (date_month_ago : Z) : list Row :=
  foldl (λ new_entries chunk,
           new_entries ++ filter (received_after date_month_ago) chunk)
        [] csv.

Definition update_months_data (csv : list (list Row))
    (date_month_ago now_save now_delete now_update : Z) : M () :=
  set_new_entries (frame_of (read_new_entries csv date_month_ago));;
  from_db ← get_entries_received_after_chosen_datetime date_month_ago;
  set_entries_from_db (frame_of (leave_only_last_update_in_df from_db));;
  print "Adding new complaints to the table";;
  save_new_entries now_save;;
  print "Marking deleted complaints in the table";;
  delete_disappeared_entries now_delete;;
  print "Updating changed complaints in the table";;
  update_changed_entries now_update.

Definition double_quote : string := String (ascii_of_nat 34) EmptyString.

(** What [print(e)] shows for an exception. *)
Definition error_message (e : Error) : string :=
  match e with
  | KeyError c => c
  | IntegrityError => "duplicate key value violates unique constraint"
  | DuplicateTable =>
      "relation " +:+ double_quote +:+ "complaints" +:+ double_quote +:+ " already exists"
  end.

(** The [else] branch of the main block with its [except Exception]
    handler. *)
Definition main_update (csv : list (list Row))
    (date_month_ago now_save now_delete now_update : Z) : M () := λ st,
  match (print "Updating last month's complaints info";;
         update_months_data csv date_month_ago now_save now_delete now_update;;
         print "All data for last month is updated!") st with
  | (Ok _, st') => (Ok (), st')
  | (Raised e, st') => print (error_message e) st'
  end.

(** What [update_months_data] prints, in order. *)
Definition stage_lines : list string :=
  [ "Adding new complaints to the table";
    "Marking deleted complaints in the table";
    "Updating changed complaints in the table" ].

(** A state before a run: the table and a console, no dataframe yet. *)
Definition initial (table : list Row) : State :=
  mkState table (frame_of []) (frame_of []) [].

(** ** What each stage hands to the table, as functions of the snapshot
    rows [S] and the resolved rows [P] *)

(** Rows of [S] with [already_saved == False]. *)
Definition new_rows (S P : list Row) : list Row :=
  filter (λ r, complaint_id r ∉ ids P) S.

(** Rows of [P] with [was_removed == True] that still have a product. *)
Definition removed_rows (S P : list Row) : list Row :=
  filter has_product (filter (λ r, complaint_id r ∉ ids S) P).

(** Rows of [S] with [already_saved != False]. *)
Definition known_rows (S P : list Row) : list Row :=
  filter (λ r, complaint_id r ∈ ids P) S.

(** Rows of [P] with [was_removed != True]. *)
Definition kept_rows (S P : list Row) : list Row :=
  filter (λ r, complaint_id r ∈ ids S) P.

(** The frame on which [update_changed_entries] drops duplicates. *)
Definition compared_rows (S P : list Row) : list Row :=
  without_update_stamp <$> (known_rows S P ++ kept_rows S P).

Definition updated_row_ids (S P : list Row) : gset Z :=
  list_to_set (ids (drop_duplicates (compared_rows S P))).

Definition changed_rows (S P : list Row) : list Row :=
  filter (λ r, complaint_id r ∈ updated_row_ids S P) (known_rows S P).

(** The disposition of an entity, read off the stage that selects it. *)
Inductive Disposition := NEW | REMOVED | CHANGED | UNCHANGED.

Global Instance Disposition_eq_dec : EqDecision Disposition.
Proof. solve_decision. Defined.

Definition disposition (S P : list Row) (e : Z) : Disposition :=
  if decide (e ∈ ids (new_rows S P)) then NEW
  else if decide (e ∈ ids (removed_rows S P)) then REMOVED
  else if decide (e ∈ ids (changed_rows S P)) then CHANGED
  else UNCHANGED.

(** The snapshot set and the resolved prior set of a run. *)
Definition snapshot (csv : list (list Row)) (date_month_ago : Z) : list Row :=
  read_new_entries csv date_month_ago.

Definition prior (table : list Row) (date_month_ago : Z) : list Row :=
  leave_only_last_update_in_df
    (stored_row <$> filter (received_after date_month_ago) table).

(** The rows a run added to the table. *)
Definition appended (before after : State) : list Row :=
  drop (length (db before)) (db after).

(** A table that respects its primary key. *)
Definition table_ok (table : list Row) : Prop :=
  Forall (λ r, is_Some (update_stamp r)) table ∧ NoDup (pk <$> table).

Global Instance table_ok_dec table : Decision (table_ok table).
Proof. unfold table_ok. apply _. Defined.

(** Every stored stamp is earlier than [now]. *)
Definition stamps_before (now : Z) (table : list Row) : Prop :=
  Forall (λ r, ∀ t, update_stamp r = Some t → t < now) table.

(** The state once [save_new_entries] has added its column. *)
Definition with_already_saved (st : State) : State :=
  mkState (db st)
    (mkDataFrame (rows (new_entries st))
       (Some (isin (ids (rows (entries_from_db st))) (ids (rows (new_entries st)))))
       (was_removed (new_entries st)))
    (entries_from_db st) (stdout st).

(** The state once [delete_disappeared_entries] has added its column. *)
Definition with_was_removed (st : State) : State :=
  mkState (db st) (new_entries st)
    (mkDataFrame (rows (entries_from_db st)) (already_saved (entries_from_db st))
       (Some (negb <$> isin (ids (rows (new_entries st))) (ids (rows (entries_from_db st))))))
    (stdout st).

(** The frames of one run. *)
Definition new_frame (now : Z) (S P : list Row) : list Row :=
  set_update_stamp now <$> new_rows S P.

Definition removed_frame (now : Z) (S P : list Row) : list Row :=
  set_update_stamp now <$> (id_and_date_only <$> removed_rows S P).

Definition changed_frame (now : Z) (S P : list Row) : list Row :=
  set_update_stamp now <$> changed_rows S P.

(** The table after a run and whether the run raised: the three appends in
    order, the first refused one ending the run. *)
Definition run_table (table S P : list Row) (now_save now_delete now_update : Z)
    : Result () * list Row :=
  let t1 := table ++ new_frame now_save S P in
  let t2 := t1 ++ removed_frame now_delete S P in
  let t3 := t2 ++ changed_frame now_update S P in
  if decide (insert_ok table (new_frame now_save S P)) then
    if decide (insert_ok t1 (removed_frame now_delete S P)) then
      if decide (insert_ok t2 (changed_frame now_update S P)) then (Ok (), t3)
      else (Raised IntegrityError, t2)
    else (Raised IntegrityError, t1)
  else (Raised IntegrityError, table).

(** The rows of [df] that carry the latest stamp of their entity. *)
Definition latest_rows (df : list Row) (e : Z) : list Row :=
  let this_id := filter (λ r, complaint_id r = e) df in
  filter (λ r, stamp_eqb (update_stamp r) (stamp_max this_id) = true) this_id.

(** [r] is in [df] and no row of its entity in [df] has a later stamp. *)
Definition is_latest (df : list Row) (r : Row) : Prop :=
  r ∈ df ∧
  ∀ r', r' ∈ df → complaint_id r' = complaint_id r →
    ∃ t t', update_stamp r = Some t ∧ update_stamp r' = Some t' ∧ t' ≤ t.

(** ** Column names and the statement that creates the table

    A Python [str] is a [string] of its UTF-8 bytes.  [str.lower()] is
    modelled on the ASCII letters, which is what it does on a name that has
    ASCII characters only ([ascii_only]). *)

(** Every character of [s] is an ASCII character. *)
Definition ascii_only (s : string) : Prop :=
  Forall (λ a, (nat_of_ascii a < 128)%nat) (String.list_ascii_of_string s).

Global Instance ascii_only_dec s : Decision (ascii_only s).
Proof. unfold ascii_only. apply _. Defined.

(** [s.replace(old, new)] for one-character [old] and [new]. *)
Fixpoint replace_char (old new : ascii) (s : string) : string :=
  match s with
  | EmptyString => EmptyString
  | String a s' =>
      String (if decide (a = old) then new else a) (replace_char old new s')
  end.

(** [s.replace(old, '')] for a one-character [old]. *)
Fixpoint remove_char (old : ascii) (s : string) : string :=
  match s with
  | EmptyString => EmptyString
  | String a s' =>
      if decide (a = old) then remove_char old s' else String a (remove_char old s')
  end.

Definition is_upper (a : ascii) : bool :=
  ((65 <=? nat_of_ascii a) && (nat_of_ascii a <=? 90))%nat.

Definition lower_char (a : ascii) : ascii :=
  if is_upper a then ascii_of_nat (nat_of_ascii a + 32) else a.

(** [s.lower()] *)
Fixpoint lower (s : string) : string :=
  match s with
  | EmptyString => EmptyString
  | String a s' => String (lower_char a) (lower s')
  end.

(** [elem.replace(' ', '_').lower().replace('?', '')] *)
Definition new_column_name (elem : string) : string :=
  remove_char "?"%char (lower (replace_char " "%char "_"%char elem)).

(** No character of [s] is [c]. *)
Definition free_of (c : ascii) (s : string) : Prop :=
  Forall (λ a, a ≠ c) (String.list_ascii_of_string s).

(** No character of [s] is an upper-case ASCII letter. *)
Definition lower_case (s : string) : Prop :=
  Forall (λ a, is_upper a = false) (String.list_ascii_of_string s).

(** The dictionary from old to new names; it is used for lookups only, so
    the order of its keys is not kept. *)
Definition create_new_column_names (column_names : list string) : gmap string string :=
  foldl (λ new_names elem, <[elem := new_column_name elem]> new_names) ∅ column_names.

Definition newline : string := String (ascii_of_nat 10) EmptyString.

(** [f'"{key}" {value},\n'] *)
Definition column_line (key value : string) : string :=
  double_quote +:+ key +:+ double_quote +:+ " " +:+ value +:+ "," +:+ newline.

Definition creation_head : string := "CREATE TABLE complaints ( ".

Definition creation_tail : string :=
  newline +:+ "    update_stamp TIMESTAMP," +:+ newline +:+
  "    PRIMARY KEY (complaint_id, update_stamp));".

(** [column_infos] is the dictionary in the order of its items. *)
Definition prepare_table_creation_string (column_infos : list (string * string)) : string :=
  let creation_str :=
    foldl (λ creation_str item, creation_str +:+ column_line item.1 item.2)
          creation_head column_infos in
  creation_str +:+ creation_tail.

(** The lines of the columns, one after the other. *)
Definition column_lines (column_infos : list (string * string)) : string :=
  foldr (λ item body, column_line item.1 item.2 +:+ body) EmptyString column_infos.

(** The dtype of a dataframe column, as far as the pandas type tests tell
    them apart. *)
Inductive Dtype := int_dtype | datetime_dtype | float_dtype | bool_dtype | object_dtype.

(** [d[key] = value] on a dictionary kept in the order of its items: a key
    that is present keeps its place. *)
Fixpoint dict_set (key value : string) (d : list (string * string))
    : list (string * string) :=
  match d with
  | [] => [(key, value)]
  | item :: d' =>
      if decide (item.1 = key) then (key, value) :: d'
      else item :: dict_set key value d'
  end.

(** The branch of [create_main_table] on the dtype of a column. *)
Definition column_type (dtype : Dtype) : string :=
  match dtype with
  | int_dtype => "INTEGER"
  | datetime_dtype => "TIMESTAMP"
  | _ => "TEXT"
  end.

(** The statement that [create_main_table] executes for a dataframe with
    these columns. *)
Definition create_main_table (column_names_df : list (string * Dtype)) : string :=
  let column_infos :=
    foldl (λ column_infos column, dict_set column.1 (column_type column.2) column_infos)
          [] column_names_df in
  prepare_table_creation_string column_infos.

(** ** The full load

    [complaints] is the table as the database has it, [None] when there is
    no table of that name; [clock i] is what [pd.to_datetime('now')] returns
    for chunk [i]. *)

(** [cur.execute(creation_str)]: CREATE TABLE gives a table with no row,
    and raises when the database has a table of that name. *)
Definition execute (creation_str : string) (complaints : option (list Row))
    : Result () * option (list Row) :=
  match complaints with
  | None => (Ok (), Some [])
  | Some table => (Raised DuplicateTable, Some table)
  end.

Fixpoint load_chunks (clock : nat → Z) (i : nat) (reader : list (list Row)) : M () :=
  match reader with
  | [] => mret ()
  | chunk :: reader' =>
      to_sql (set_update_stamp (clock i) <$> chunk);;
      load_chunks clock (S i) reader'
  end.

(** [some_data_for_type_detection] gives the columns of the first rows of
    the csv with their dtypes. *)
Definition load_full_data (csv : list (list Row))
    (some_data_for_type_detection : list (string * Dtype)) (clock : nat → Z)
    (complaints : option (list Row)) : Result () * option (list Row) :=
  match execute (create_main_table some_data_for_type_detection) complaints with
  | (Ok _, Some table) =>
      let out :=
        (print "Saving full history of complaints to the datatable. This process takes quite a while...";;
         load_chunks clock 0 csv) (initial table) in
      (out.1, Some (db out.2))
  | (result, complaints) => (result, complaints)
  end.


(** ** A small table and csv, used to run the definitions *)

Definition ex_payload (product issue : string) : gmap string Cell :=
  {[ "product" := CText product; "issue" := CText issue ]}.

(** Complaint 1 has two versions, 2 is about to disappear, 3 and 5 are
    tombstoned, 6 is unchanged and 9 lies before the window. *)
Definition ex_table : list Row :=
  [ mkRow 1 (Some 10) (Some 1) (ex_payload "Mortgage" "Late fee");
    mkRow 1 (Some 10) (Some 2) (ex_payload "Mortgage" "Escrow");
    mkRow 2 (Some 11) (Some 1) (ex_payload "Loan" "Rate");
    mkRow 3 (Some 12) (Some 1) (ex_payload "Card" "Fraud");
    mkRow 3 (Some 12) (Some 2) ∅;
    mkRow 5 (Some 13) (Some 1) (ex_payload "Card" "Billing");
    mkRow 5 (Some 13) (Some 2) ∅;
    mkRow 6 (Some 14) (Some 1) (ex_payload "Loan" "Payoff");
    mkRow 9 (Some 3) (Some 1) (ex_payload "Loan" "Old") ].

Definition ex_csv : list (list Row) :=
  [ [ mkRow 1 (Some 10) None (ex_payload "Mortgage" "Closed");
      mkRow 3 (Some 12) None (ex_payload "Card" "Reopened");
      mkRow 6 (Some 14) None (ex_payload "Loan" "Payoff") ];
    [ mkRow 4 (Some 15) None (ex_payload "Card" "Fees");
      mkRow 8 (Some 2) None (ex_payload "Loan" "Ancient") ] ].

(** The run on them: cutoff 5, clock readings 100, 101 and 102. *)
Definition ex_run : Result () * State :=
  update_months_data ex_csv 5 100 101 102 (initial ex_table).


(** Two versions of complaint 7 with one stamp, which the primary key
    forbids in the table. *)
Definition ex_tie : list Row :=
  [ mkRow 7 (Some 10) (Some 3) (ex_payload "Card" "Fraud");
    mkRow 7 (Some 10) (Some 3) ∅ ].

(** ** Lists and masks *)

Section masks.
Context {A : Type}.

Lemma mask_rows_bool_decide (P : A → Prop) `{!∀ x, Decision (P x)} (l : list A) :
  mask_rows ((λ x, bool_decide (P x)) <$> l) l = filter P l.
Proof.
  induction l as [|x l IH]; [done|].
  rewrite filter_cons, fmap_cons. cbn [mask_rows]. rewrite IH.
  destruct (decide (P x)) as [Hx|Hx].
  - by rewrite bool_decide_eq_true_2.
  - by rewrite bool_decide_eq_false_2.
Qed.

Lemma mask_rows_negb (P : A → Prop) `{!∀ x, Decision (P x)} (l : list A) :
  mask_rows (negb <$> ((λ x, bool_decide (P x)) <$> l)) l = filter (λ x, ¬ P x) l.
Proof.
  rewrite <- list_fmap_compose.
  rewrite <- (mask_rows_bool_decide (λ x, ¬ P x)).
  f_equal. apply list_fmap_ext. intros _ x _. cbn.
  by rewrite bool_decide_not.
Qed.
End masks.

Lemma isin_ids (values : list Z) (df : list Row) :
  isin values (ids df) = (λ r, bool_decide (complaint_id r ∈ values)) <$> df.
Proof. unfold isin, ids. by rewrite <- list_fmap_compose. Qed.

(** ** The stages as one append each *)

Lemma bind_run {A B} (m : M A) (f : A → M B) (st : State) :
  (m ≫= f) st =
    match m st with
    | (Ok a, st') => f a st'
    | (Raised e, st') => (Raised e, st')
    end.
Proof. reflexivity. Qed.

Ltac run_stage :=
  repeat first
    [ rewrite bind_run
    | progress unfold get_state, set_new_entries, set_entries_from_db, column, print, raise
    | progress cbn beta iota delta
        [mret M_ret new_entries entries_from_db already_saved was_removed rows db stdout] ].

Lemma save_new_entries_run now st :
  save_new_entries now st =
    to_sql (set_update_stamp now <$>
              new_rows (rows (new_entries st)) (rows (entries_from_db st)))
           (with_already_saved st).
Proof.
  unfold save_new_entries, with_already_saved. run_stage.
  rewrite !isin_ids, mask_rows_negb. reflexivity.
Qed.

Lemma delete_disappeared_entries_run now st :
  delete_disappeared_entries now st =
    to_sql (set_update_stamp now <$> (id_and_date_only <$>
              removed_rows (rows (new_entries st)) (rows (entries_from_db st))))
           (with_was_removed st).
Proof.
  unfold delete_disappeared_entries, with_was_removed. run_stage.
  rewrite !isin_ids, mask_rows_negb. reflexivity.
Qed.

Lemma negb_negb_fmap (l : list bool) : negb <$> (negb <$> l) = l.
Proof.
  rewrite <- list_fmap_compose. rewrite <- (list_fmap_id l) at 2.
  apply list_fmap_ext. intros _ b _. apply negb_involutive.
Qed.

Lemma filter_fmap_comm {A B} (f : A → B) (P : B → Prop) `{!∀ x, Decision (P x)}
    (l : list A) :
  filter P (f <$> l) = f <$> filter (λ x, P (f x)) l.
Proof.
  induction l as [|x l IH]; [done|].
  rewrite fmap_cons, !filter_cons, IH.
  by destruct (decide (P (f x))).
Qed.

Lemma without_set_update_stamp now (l : list Row) :
  without_update_stamp <$> (set_update_stamp now <$> l) = without_update_stamp <$> l.
Proof. rewrite <- list_fmap_compose. by apply list_fmap_ext. Qed.

Lemma update_changed_entries_run now st :
  already_saved (new_entries st) =
    Some (isin (ids (rows (entries_from_db st))) (ids (rows (new_entries st)))) →
  was_removed (entries_from_db st) =
    Some (negb <$> isin (ids (rows (new_entries st))) (ids (rows (entries_from_db st)))) →
  update_changed_entries now st =
    to_sql (set_update_stamp now <$>
              changed_rows (rows (new_entries st)) (rows (entries_from_db st))) st.
Proof.
  intros Hsaved Hremoved.
  unfold update_changed_entries. run_stage. rewrite Hsaved. run_stage.
  rewrite Hremoved. run_stage.
  rewrite negb_negb_fmap, !isin_ids, !mask_rows_bool_decide.
  rewrite fmap_app, without_set_update_stamp, <- fmap_app.
  rewrite filter_fmap_comm. reflexivity.
Qed.

Lemma to_sql_accept df st :
  insert_ok (db st) df →
  to_sql df st =
    (Ok (), mkState (db st ++ df) (new_entries st) (entries_from_db st) (stdout st)).
Proof. intros H. unfold to_sql. by rewrite decide_True. Qed.

Lemma to_sql_refuse df st :
  ¬ insert_ok (db st) df → to_sql df st = (Raised IntegrityError, st).
Proof. intros H. unfold to_sql. by rewrite decide_False. Qed.

Lemma update_months_data_run csv c t1 t2 t3 st :
  let out := update_months_data csv c t1 t2 t3 st in
  (out.1, db out.2) = run_table (db st) (snapshot csv c) (prior (db st) c) t1 t2 t3.
Proof.
  unfold update_months_data, get_entries_received_after_chosen_datetime, run_table.
  run_stage. rewrite save_new_entries_run.
  cbn [with_already_saved db new_entries entries_from_db rows frame_of].
  fold (snapshot csv c). fold (prior (db st) c).
  fold (new_frame t1 (snapshot csv c) (prior (db st) c)).
  set (S := snapshot csv c). set (P := prior (db st) c).
  destruct (decide (insert_ok (db st) (new_frame t1 S P))) as [H1|H1];
    [rewrite to_sql_accept by exact H1 | by rewrite to_sql_refuse by exact H1].
  run_stage. rewrite delete_disappeared_entries_run.
  cbn [with_was_removed db new_entries entries_from_db rows frame_of].
  fold (removed_frame t2 S P).
  destruct (decide (insert_ok (db st ++ new_frame t1 S P) (removed_frame t2 S P)))
    as [H2|H2];
    [rewrite to_sql_accept by exact H2 | by rewrite to_sql_refuse by exact H2].
  run_stage. rewrite update_changed_entries_run by done.
  cbn [db new_entries entries_from_db rows].
  fold (changed_frame t3 S P).
  destruct (decide (insert_ok ((db st ++ new_frame t1 S P) ++ removed_frame t2 S P)
                      (changed_frame t3 S P))) as [H3|H3];
    [by rewrite to_sql_accept by exact H3 | by rewrite to_sql_refuse by exact H3].
Qed.

(** ** Counting rows by entity *)

Lemma count_id_nil e : count_id e [] = 0%nat.
Proof. done. Qed.

Lemma count_id_cons e r df :
  count_id e (r :: df) =
    ((if decide (complaint_id r = e) then 1 else 0) + count_id e df)%nat.
Proof. unfold count_id. rewrite filter_cons. by case_decide. Qed.

Lemma count_id_app e df1 df2 :
  count_id e (df1 ++ df2) = (count_id e df1 + count_id e df2)%nat.
Proof. unfold count_id. by rewrite filter_app, length_app. Qed.

Lemma elem_of_ids e df : e ∈ ids df ↔ ∃ r, r ∈ df ∧ complaint_id r = e.
Proof.
  unfold ids. rewrite list_elem_of_fmap.
  split; intros (r & H1 & H2); exists r; by split.
Qed.

Lemma elem_of_ids_count e df : e ∈ ids df ↔ (0 < count_id e df)%nat.
Proof.
  induction df as [|r df IH].
  - rewrite count_id_nil. split; [by intros ?%elem_of_nil | lia].
  - unfold ids in *. rewrite fmap_cons, elem_of_cons, IH, count_id_cons.
    case_decide; split;
      [lia | intros _; by left | intros [?|?]; [congruence|done] | intros; right; lia].
Qed.

Lemma count_id_0 e df : e ∉ ids df ↔ count_id e df = 0%nat.
Proof. rewrite elem_of_ids_count. lia. Qed.

Lemma count_id_fmap (f : Row → Row) e df :
  (∀ r, complaint_id (f r) = complaint_id r) →
  count_id e (f <$> df) = count_id e df.
Proof.
  intros Hf. induction df as [|r df IH]; [done|].
  rewrite fmap_cons, !count_id_cons, IH, Hf. done.
Qed.

Lemma ids_fmap (f : Row → Row) df :
  (∀ r, complaint_id (f r) = complaint_id r) → ids (f <$> df) = ids df.
Proof.
  intros Hf. unfold ids. rewrite <- list_fmap_compose.
  apply list_fmap_ext. intros _ r _. apply Hf.
Qed.

Lemma count_id_filter_le (Q : Row → Prop) `{!∀ r, Decision (Q r)} e df :
  (count_id e (filter Q df) ≤ count_id e df)%nat.
Proof.
  induction df as [|r df IH]; [rewrite filter_nil; lia|].
  rewrite filter_cons. destruct (decide (Q r)); rewrite ?count_id_cons; lia.
Qed.

(** Rows of one entity in a frame whose ids do not repeat. *)
Lemma NoDup_ids_count e df : NoDup (ids df) → (count_id e df ≤ 1)%nat.
Proof.
  induction df as [|r df IH]; [rewrite count_id_nil; lia|].
  unfold ids in *. rewrite fmap_cons, NoDup_cons, count_id_cons.
  intros [Hr Hdf]. specialize (IH Hdf).
  case_decide; [|lia]. subst e.
  apply count_id_0 in Hr. lia.
Qed.

Lemma count_NoDup_ids df : (∀ e, (count_id e df ≤ 1)%nat) → NoDup (ids df).
Proof.
  induction df as [|r df IH]; intros H; [apply NoDup_nil_2|].
  unfold ids in *. rewrite fmap_cons, NoDup_cons. split.
  - apply count_id_0. specialize (H (complaint_id r)).
    rewrite count_id_cons, decide_True in H by done. lia.
  - apply IH. intros e. specialize (H e). rewrite count_id_cons in H. lia.
Qed.


(** ** Filters *)

Section filters.
Context {A : Type}.
Implicit Types l : list A.

Lemma filter_ext_elem (P Q : A → Prop)
    `{!∀ x, Decision (P x), !∀ x, Decision (Q x)} l :
  (∀ x, x ∈ l → P x ↔ Q x) → filter P l = filter Q l.
Proof.
  induction l as [|x l IH]; intros Hl; [done|].
  rewrite !filter_cons, IH by (intros y Hy; apply Hl; by right).
  apply decide_ext, Hl. by left.
Qed.

Lemma filter_all (P : A → Prop) `{!∀ x, Decision (P x)} l :
  (∀ x, x ∈ l → P x) → filter P l = l.
Proof.
  induction l as [|x l IH]; intros Hl; [done|].
  rewrite filter_cons_True by (apply Hl; by left).
  f_equal. apply IH. intros y Hy. apply Hl. by right.
Qed.

Lemma filter_none (P : A → Prop) `{!∀ x, Decision (P x)} l :
  (∀ x, x ∈ l → ¬ P x) → filter P l = [].
Proof.
  induction l as [|x l IH]; intros Hl; [done|].
  rewrite filter_cons_False by (apply Hl; by left).
  apply IH. intros y Hy. apply Hl. by right.
Qed.

Lemma foldl_append {B} (g : B → list A) (keys : list B) (acc : list A) :
  foldl (λ acc x, acc ++ g x) acc keys = acc ++ (keys ≫= g).
Proof.
  revert acc. induction keys as [|x keys IH]; intros acc.
  - by rewrite app_nil_r.
  - cbn [foldl]. rewrite IH, bind_cons. by rewrite <- app_assoc.
Qed.
End filters.

(** ** The resolver, entity by entity *)

Lemma elem_of_non_unique_ids seen df e :
  e ∈ ids (mask_rows (duplicated_from seen (ids df)) df) ↔
    (e ∈ seen ∧ (0 < count_id e df)%nat) ∨ (2 ≤ count_id e df)%nat.
Proof.
  revert seen. induction df as [|r df IH]; intros seen.
  - rewrite count_id_nil. cbn. split; [by intros ?%elem_of_nil|lia].
  - unfold ids in *. rewrite fmap_cons. cbn [duplicated_from mask_rows].
    rewrite count_id_cons.
    pose proof (elem_of_ids_count e df) as Hin. unfold ids in Hin.
    case_bool_decide as Hseen.
    + rewrite fmap_cons, elem_of_cons, IH, elem_of_cons.
      case_decide; [subst e|]; intuition (subst; try lia; try tauto).
    + rewrite IH, elem_of_cons.
      case_decide; [subst e|]; intuition (subst; try lia; try tauto).
Qed.

Lemma elem_of_non_unique_ids_set df e :
  e ∈ (list_to_set (ids (mask_rows (duplicated (ids df)) df)) : gset Z) ↔
    (2 ≤ count_id e df)%nat.
Proof.
  rewrite elem_of_list_to_set. unfold duplicated.
  rewrite elem_of_non_unique_ids. split; [|by right].
  intros [[?%elem_of_nil _]|?]; done.
Qed.

Lemma leave_only_last_update_in_df_app df :
  leave_only_last_update_in_df df =
    drop_duplicates_complaint_id df ++
    (elements (list_to_set (ids (mask_rows (duplicated (ids df)) df)) : gset Z)
       ≫= latest_rows df).
Proof. unfold leave_only_last_update_in_df. by rewrite foldl_append. Qed.

Lemma rows_of_drop_duplicates_complaint_id e df :
  filter (λ r, complaint_id r = e) (drop_duplicates_complaint_id df) =
    if decide (count_id e df = 1%nat) then filter (λ r, complaint_id r = e) df else [].
Proof.
  unfold drop_duplicates_complaint_id. rewrite list_filter_filter.
  case_decide as Hc.
  - apply filter_ext_elem. intros r _. split; [by intros [? _]|].
    intros ->. by split.
  - apply filter_none. intros r _ [<- ?]. done.
Qed.

Lemma latest_rows_id df e r : r ∈ latest_rows df e → complaint_id r = e.
Proof.
  unfold latest_rows. rewrite !list_elem_of_filter. by intros (_ & ? & _).
Qed.

Lemma rows_of_bind_latest e keys df :
  NoDup keys →
  filter (λ r, complaint_id r = e) (keys ≫= latest_rows df) =
    if decide (e ∈ keys) then latest_rows df e else [].
Proof.
  induction keys as [|x keys IH]; intros Hnd.
  - rewrite decide_False; [done|]. apply not_elem_of_nil.
  - apply NoDup_cons in Hnd as [Hx Hnd].
    rewrite bind_cons, filter_app, IH by done.
    destruct (decide (x = e)) as [->|Hne].
    + rewrite (decide_False (P := e ∈ keys)) by done.
      rewrite decide_True by (by left).
      rewrite app_nil_r. apply filter_all. intros r. apply latest_rows_id.
    + rewrite filter_none by (intros r ?%latest_rows_id; congruence).
      cbn [app]. apply decide_ext. rewrite elem_of_cons. naive_solver.
Qed.

Lemma latest_rows_absent df e : count_id e df = 0%nat → latest_rows df e = [].
Proof.
  intros Hc. unfold latest_rows.
  apply nil_length_inv in Hc. by rewrite Hc.
Qed.

(** The resolver keeps, of an entity with one row, that row, and of an
    entity with several rows, those with the latest stamp. *)
Lemma rows_of_leave_only_last_update_in_df e df :
  filter (λ r, complaint_id r = e) (leave_only_last_update_in_df df) =
    if decide (count_id e df = 1%nat) then filter (λ r, complaint_id r = e) df
    else latest_rows df e.
Proof.
  rewrite leave_only_last_update_in_df_app, filter_app.
  rewrite rows_of_drop_duplicates_complaint_id, rows_of_bind_latest
    by apply NoDup_elements.
  case_decide as Hc.
  - rewrite decide_False; [by rewrite app_nil_r|].
    rewrite elem_of_elements, elem_of_non_unique_ids_set. lia.
  - cbn [app]. case_decide as Hin; [done|].
    rewrite elem_of_elements, elem_of_non_unique_ids_set in Hin.
    symmetry. apply latest_rows_absent. lia.
Qed.

(** ** Latest stamps *)

Lemma stamp_max_ge df r t :
  r ∈ df → update_stamp r = Some t → ∃ m, stamp_max df = Some m ∧ t ≤ m.
Proof.
  induction df as [|x df IH]; [by intros ?%elem_of_nil|].
  rewrite elem_of_cons. cbn [stamp_max foldr]. fold (stamp_max df).
  intros [->|Hr] Ht.
  - rewrite Ht. destruct (stamp_max df) as [b|]; eexists; split; [done|lia|done|lia].
  - destruct (IH Hr Ht) as (m & -> & Hm).
    destruct (update_stamp x) as [a|]; eexists; split; [done|lia|done|lia].
Qed.

Lemma stamp_max_attained df m :
  stamp_max df = Some m → ∃ r, r ∈ df ∧ update_stamp r = Some m.
Proof.
  revert m. induction df as [|x df IH]; intros m; [done|].
  cbn [stamp_max foldr]. fold (stamp_max df).
  destruct (update_stamp x) as [a|] eqn:Hx, (stamp_max df) as [b|] eqn:Hdf.
  - intros [= <-]. destruct (Z.max_spec a b) as [[_ ->]|[_ ->]].
    + destruct (IH b eq_refl) as (r & ? & ?). exists r. split; [by right|done].
    + exists x. split; [by left|done].
  - intros [= <-]. exists x. split; [by left|done].
  - intros [= <-]. destruct (IH b eq_refl) as (r & ? & ?). exists r. split; [by right|done].
  - done.
Qed.

Lemma stamp_eqb_true a b : stamp_eqb a b = true ↔ ∃ t, a = Some t ∧ b = Some t.
Proof.
  destruct a as [x|], b as [y|]; cbn; rewrite ?bool_decide_eq_true;
    split; try done; try naive_solver.
Qed.

Lemma pk_unique df r r' :
  NoDup (pk <$> df) → r ∈ df → r' ∈ df → pk r = pk r' → r = r'.
Proof.
  induction df as [|x df IH]; [by intros _ ?%elem_of_nil|].
  rewrite fmap_cons, NoDup_cons, !elem_of_cons.
  intros [Hx Hnd] [->|Hr] [->|Hr'] Hpk; [done| | |by apply IH].
  - exfalso. apply Hx. rewrite Hpk. by apply list_elem_of_fmap_2.
  - exfalso. apply Hx. rewrite <- Hpk. by apply list_elem_of_fmap_2.
Qed.

Lemma table_ok_filter (Q : Row → Prop) `{!∀ r, Decision (Q r)} df :
  table_ok df → table_ok (filter Q df).
Proof.
  intros [Hs Hnd]. split.
  - apply Forall_forall. intros r [_ Hr]%list_elem_of_filter.
    by apply (proj1 (Forall_forall _ _) Hs).
  - eapply sublist_NoDup; [exact Hnd|]. by apply fmap_sublist, sublist_filter.
Qed.

Lemma table_ok_stamp df r : table_ok df → r ∈ df → is_Some (update_stamp r).
Proof. intros [Hs _] Hr. by apply (proj1 (Forall_forall _ _) Hs). Qed.

Lemma NoDup_all_equal {A} (l : list A) (x : A) :
  NoDup l → (∀ y, y ∈ l → y = x) → x ∈ l → l = [x].
Proof.
  destruct l as [|a [|b l]]; intros Hnd Hall Hx.
  - by apply elem_of_nil in Hx.
  - f_equal. apply Hall. by left.
  - apply NoDup_cons in Hnd as [Ha _]. exfalso. apply Ha.
    rewrite (Hall a) by (by left). rewrite (Hall b) by (right; by left). by left.
Qed.

Lemma elem_of_latest_rows df e r :
  table_ok df →
  r ∈ latest_rows df e ↔ complaint_id r = e ∧ is_latest df r.
Proof.
  intros Hok. unfold latest_rows, is_latest.
  set (this_id := filter (λ r, complaint_id r = e) df).
  rewrite list_elem_of_filter, stamp_eqb_true. unfold this_id at 2.
  rewrite list_elem_of_filter. split.
  - intros ((m & Hr & Hm) & He & Hin). do 2 (split; [done|]).
    intros r' Hin' He'.
    destruct (table_ok_stamp df r' Hok Hin') as [t' Ht'].
    destruct (stamp_max_ge this_id r' t') as (m' & Hm' & Hle); [|done|].
    { apply list_elem_of_filter. split; congruence. }
    exists m, t'. rewrite Hm in Hm'. by simplify_eq.
  - intros (He & Hin & Hmax). split; [|done].
    destruct (Hmax r Hin eq_refl) as (t & _ & Ht & _ & _).
    destruct (stamp_max_ge this_id r t) as (m & Hm & Hle); [|done|].
    { by apply list_elem_of_filter. }
    destruct (stamp_max_attained this_id m Hm) as (r' & [He' Hin']%list_elem_of_filter & Hr').
    destruct (Hmax r' Hin') as (t1 & t2 & ? & ? & ?); [congruence|].
    exists t. split; [done|]. rewrite Hm. f_equal. simplify_eq. lia.
Qed.

Lemma latest_rows_singleton df e :
  table_ok df → (0 < count_id e df)%nat → ∃ r, latest_rows df e = [r].
Proof.
  intros Hok Hc.
  set (this_id := filter (λ r, complaint_id r = e) df).
  assert (∃ r0, r0 ∈ this_id) as [r0 Hr0].
  { unfold count_id in Hc. fold this_id in Hc.
    destruct this_id as [|r0 ?]; [cbn in Hc; lia|]. exists r0. by left. }
  assert (Hr0' := Hr0). apply list_elem_of_filter in Hr0' as [He0 Hin0].
  destruct (table_ok_stamp df r0 Hok Hin0) as [t0 Ht0].
  destruct (stamp_max_ge this_id r0 t0) as (m & Hm & _); [done..|].
  destruct (stamp_max_attained this_id m Hm) as (r & Hr & Hrm).
  exists r. apply NoDup_all_equal.
  - unfold latest_rows. do 2 apply NoDup_filter.
    destruct Hok as [_ Hnd]. by apply NoDup_fmap_1 in Hnd.
  - intros y. unfold latest_rows. fold this_id. rewrite Hm.
    intros [(t & Hy & [= <-])%stamp_eqb_true Hy']%list_elem_of_filter.
    apply list_elem_of_filter in Hy' as [Hye Hyin].
    apply list_elem_of_filter in Hr as [Hre Hrin].
    apply (pk_unique df); [by destruct Hok|done..|].
    unfold pk. congruence.
  - unfold latest_rows. fold this_id. apply list_elem_of_filter. split; [|done].
    apply stamp_eqb_true. eauto.
Qed.

Lemma rows_of_resolved e df :
  table_ok df →
  filter (λ r, complaint_id r = e) (leave_only_last_update_in_df df) = latest_rows df e.
Proof.
  intros Hok. rewrite rows_of_leave_only_last_update_in_df.
  case_decide as Hc; [|done].
  destruct (latest_rows_singleton df e Hok) as [r Hr]; [lia|].
  assert (r ∈ filter (λ r, complaint_id r = e) df) as Hin.
  { assert (r ∈ latest_rows df e) as Hin by (rewrite Hr; by left).
    unfold latest_rows in Hin. by apply list_elem_of_filter in Hin as [_ ?]. }
  rewrite Hr. unfold count_id in Hc.
  destruct (filter (λ r, complaint_id r = e) df) as [|x [|??]]; try done.
  apply list_elem_of_singleton in Hin. by subst.
Qed.


Lemma count_id_resolved e df :
  table_ok df → (0 < count_id e df)%nat →
  count_id e (leave_only_last_update_in_df df) = 1%nat.
Proof.
  intros Hok Hc. unfold count_id at 1. rewrite rows_of_resolved by done.
  by destruct (latest_rows_singleton df e Hok Hc) as [r ->].
Qed.

Lemma resolved_subseteq df r : r ∈ leave_only_last_update_in_df df → r ∈ df.
Proof.
  intros Hr.
  assert (r ∈ filter (λ x, complaint_id x = complaint_id r)
                (leave_only_last_update_in_df df)) as Hin
    by (by apply list_elem_of_filter).
  rewrite rows_of_leave_only_last_update_in_df in Hin.
  unfold latest_rows in Hin. case_decide.
  - by apply list_elem_of_filter in Hin as [_ ?].
  - by apply list_elem_of_filter in Hin as [_ [_ ?]%list_elem_of_filter].
Qed.

Lemma ids_resolved e df :
  table_ok df → e ∈ ids (leave_only_last_update_in_df df) ↔ e ∈ ids df.
Proof.
  intros Hok. split.
  - intros (r & Hr & <-)%elem_of_ids. apply elem_of_ids.
    exists r. split; [by apply resolved_subseteq|done].
  - intros Hc%elem_of_ids_count. apply elem_of_ids_count.
    rewrite count_id_resolved by done. lia.
Qed.

Lemma NoDup_ids_resolved df :
  table_ok df → NoDup (ids (leave_only_last_update_in_df df)).
Proof.
  intros Hok. apply count_NoDup_ids. intros e.
  destruct (decide (0 < count_id e df)%nat) as [Hc|Hc].
  - by rewrite count_id_resolved.
  - assert (e ∉ ids (leave_only_last_update_in_df df)) as ->%count_id_0; [|lia].
    rewrite ids_resolved, elem_of_ids_count; done.
Qed.

(** ** The three selections *)

Lemma ids_new_rows S P e : e ∈ ids (new_rows S P) ↔ e ∈ ids S ∧ e ∉ ids P.
Proof.
  unfold new_rows. split.
  - intros (r & [? ?]%list_elem_of_filter & <-)%elem_of_ids.
    split; [apply elem_of_ids; eauto|done].
  - intros [(r & ? & <-)%elem_of_ids ?]. apply elem_of_ids. exists r.
    split; [|done]. by apply list_elem_of_filter.
Qed.

Lemma ids_removed_rows S P e :
  e ∈ ids (removed_rows S P) ↔
    ∃ r, r ∈ P ∧ complaint_id r = e ∧ (e ∉ ids S) ∧ has_product r.
Proof.
  unfold removed_rows. rewrite elem_of_ids. split.
  - intros (r & Hr & <-). rewrite !list_elem_of_filter in Hr.
    destruct Hr as (? & ? & ?). eauto.
  - intros (r & ? & <- & ? & ?). exists r. split; [|done].
    by rewrite !list_elem_of_filter.
Qed.

Lemma ids_known_rows S P e : e ∈ ids (known_rows S P) ↔ e ∈ ids S ∧ e ∈ ids P.
Proof.
  unfold known_rows. split.
  - intros (r & [? ?]%list_elem_of_filter & <-)%elem_of_ids.
    split; [apply elem_of_ids; eauto|done].
  - intros [(r & ? & <-)%elem_of_ids ?]. apply elem_of_ids. exists r.
    split; [|done]. by apply list_elem_of_filter.
Qed.

Lemma ids_changed_rows S P e :
  e ∈ ids (changed_rows S P) ↔ e ∈ updated_row_ids S P ∧ e ∈ ids S ∧ e ∈ ids P.
Proof.
  unfold changed_rows. rewrite <- ids_known_rows. split.
  - intros (r & [? ?]%list_elem_of_filter & <-)%elem_of_ids.
    split; [done|apply elem_of_ids; eauto].
  - intros [? (r & ? & <-)%elem_of_ids]. apply elem_of_ids. exists r.
    split; [|done]. by apply list_elem_of_filter.
Qed.

Lemma ids_new_frame now S P : ids (new_frame now S P) = ids (new_rows S P).
Proof. unfold new_frame. by apply ids_fmap. Qed.

Lemma ids_removed_frame now S P : ids (removed_frame now S P) = ids (removed_rows S P).
Proof. unfold removed_frame. by rewrite !ids_fmap. Qed.

Lemma ids_changed_frame now S P : ids (changed_frame now S P) = ids (changed_rows S P).
Proof. unfold changed_frame. by apply ids_fmap. Qed.

(** No entity is selected by two stages. *)
Lemma selections_disjoint S P e :
  (e ∈ ids (new_rows S P) → e ∉ ids (removed_rows S P)) ∧
  (e ∈ ids (new_rows S P) → e ∉ ids (changed_rows S P)) ∧
  (e ∈ ids (removed_rows S P) → e ∉ ids (changed_rows S P)).
Proof.
  rewrite ids_new_rows, ids_removed_rows, ids_changed_rows.
  split_and!.
  - intros [_ HP] (r & ? & <- & _). apply HP, elem_of_ids. eauto.
  - intros [_ HP] (_ & _ & ?). done.
  - intros (r & ? & <- & HS & _) (_ & ? & _). done.
Qed.

Lemma disposition_NEW S P e :
  disposition S P e = NEW ↔ e ∈ ids (new_rows S P).
Proof. unfold disposition. repeat case_decide; naive_solver. Qed.

Lemma disposition_REMOVED S P e :
  disposition S P e = REMOVED ↔ e ∈ ids (removed_rows S P).
Proof.
  pose proof (selections_disjoint S P e) as (? & _ & _).
  unfold disposition. repeat case_decide; naive_solver.
Qed.

Lemma disposition_CHANGED S P e :
  disposition S P e = CHANGED ↔ e ∈ ids (changed_rows S P).
Proof.
  pose proof (selections_disjoint S P e) as (_ & ? & ?).
  unfold disposition. repeat case_decide; naive_solver.
Qed.

Lemma disposition_UNCHANGED S P e :
  disposition S P e = UNCHANGED ↔
    (e ∉ ids (new_rows S P)) ∧ (e ∉ ids (removed_rows S P)) ∧
    (e ∉ ids (changed_rows S P)).
Proof. unfold disposition. repeat case_decide; naive_solver. Qed.

(** ** What a run appends *)

Lemma pk_set_update_stamp now (df : list Row) :
  pk <$> (set_update_stamp now <$> df) = (λ e, (e, Some now)) <$> ids df.
Proof. unfold ids. rewrite <- !list_fmap_compose. by apply list_fmap_ext. Qed.

Lemma insert_ok_NoDup_ids table now df :
  insert_ok table (set_update_stamp now <$> df) → NoDup (ids df).
Proof.
  intros (_ & Hnd & _). rewrite pk_set_update_stamp in Hnd.
  by apply NoDup_fmap_1 in Hnd.
Qed.

Lemma appended_app st st' df : db st' = db st ++ df → appended st st' = df.
Proof. unfold appended. intros ->. apply drop_app_length. Qed.

(** A run ends in one of four ways. *)
Lemma run_appended csv c t1 t2 t3 st :
  let S := snapshot csv c in
  let P := prior (db st) c in
  let N := new_frame t1 S P in
  let T := removed_frame t2 S P in
  let C := changed_frame t3 S P in
  let out := update_months_data csv c t1 t2 t3 st in
  (out.1 = Ok () ∧ insert_ok (db st) N ∧ insert_ok (db st ++ N) T ∧
     insert_ok ((db st ++ N) ++ T) C ∧ appended st out.2 = N ++ T ++ C) ∨
  (out.1 = Raised IntegrityError ∧ ¬ insert_ok (db st) N ∧ appended st out.2 = []) ∨
  (out.1 = Raised IntegrityError ∧ insert_ok (db st) N ∧
     ¬ insert_ok (db st ++ N) T ∧ appended st out.2 = N) ∨
  (out.1 = Raised IntegrityError ∧ insert_ok (db st) N ∧ insert_ok (db st ++ N) T ∧
     ¬ insert_ok ((db st ++ N) ++ T) C ∧ appended st out.2 = N ++ T).
Proof.
  intros S P N T C out.
  pose proof (update_months_data_run csv c t1 t2 t3 st) as Hrun.
  cbv zeta in Hrun. fold out S P in Hrun. unfold run_table in Hrun.
  fold N T C in Hrun.
  repeat case_decide; injection Hrun as Hres Hdb.
  - left. split_and!; [done..|]. apply appended_app. by rewrite Hdb, <- !app_assoc.
  - do 3 right. split_and!; [done..|]. apply appended_app. by rewrite Hdb, <- !app_assoc.
  - right; right; left. split_and!; [done..|]. by apply appended_app.
  - right; left. split_and!; [done..|]. apply appended_app. by rewrite app_nil_r.
Qed.

(** ** The latest-version resolver *)

(** C2, as stated, fails: on two rows of complaint 7 that share their
    update_stamp, the resolver returns both rows, not one. *)
Lemma leave_only_last_update_in_df_keeps_ties :
  7 ∈ ids ex_tie ∧ count_id 7 (leave_only_last_update_in_df ex_tie) = 2%nat.
Proof. split; [|by vm_compute]. apply (bool_decide_unpack _). by vm_compute. Qed.

(** C2, amended: on rows that respect the primary key of the table (no NULL
    update_stamp, no two rows with the same complaint_id and update_stamp),
    the resolver returns exactly one row for every complaint_id of its
    input, a row of the input whose update_stamp is the maximum of that
    complaint, and no row of any other complaint_id; on any input, a
    complaint with several rows keeps every row that carries its maximal
    update_stamp. *)
Theorem leave_only_last_update_in_df_latest (df : list Row) (e : Z) :
  let resolved := filter (λ r, complaint_id r = e) (leave_only_last_update_in_df df) in
  (table_ok df → e ∈ ids df → ∃ r, resolved = [r] ∧ is_latest df r) ∧
  (e ∉ ids df → e ∉ ids (leave_only_last_update_in_df df)) ∧
  ((2 ≤ count_id e df)%nat → resolved = latest_rows df e).
Proof.
  cbv zeta. split_and!.
  - intros Hok Hc%elem_of_ids_count. rewrite rows_of_resolved by done.
    destruct (latest_rows_singleton df e Hok Hc) as [r Hr].
    exists r. split; [done|].
    apply (elem_of_latest_rows df e r Hok). rewrite Hr. by left.
  - intros He (r & Hr%resolved_subseteq & <-)%elem_of_ids.
    apply He, elem_of_ids. eauto.
  - intros Hc. rewrite rows_of_leave_only_last_update_in_df.
    rewrite decide_False by lia. done.
Qed.

Lemma leave_only_last_update_in_df_latest_witness :
  table_ok ex_table ∧ 1 ∈ ids ex_table ∧
  ∃ r, filter (λ r, complaint_id r = 1) (leave_only_last_update_in_df ex_table) = [r] ∧
       is_latest ex_table r.
Proof.
  assert (table_ok ex_table) as Hok by (apply (bool_decide_unpack _); by vm_compute).
  assert (1 ∈ ids ex_table) as Hin by (apply (bool_decide_unpack _); by vm_compute).
  split_and!; [done..|].
  exact (proj1 (leave_only_last_update_in_df_latest ex_table 1) Hok Hin).
Defined.

(** ** Rows appended per entity *)

Lemma accepted_count table now df e :
  insert_ok table (set_update_stamp now <$> df) →
  (count_id e (set_update_stamp now <$> df) ≤ 1)%nat.
Proof.
  intros Hok%insert_ok_NoDup_ids. rewrite count_id_fmap by done.
  by apply NoDup_ids_count.
Qed.

Lemma count_new_frame e now S P :
  (0 < count_id e (new_frame now S P))%nat ↔ e ∈ ids (new_rows S P).
Proof. by rewrite <- elem_of_ids_count, ids_new_frame. Qed.

Lemma count_removed_frame e now S P :
  (0 < count_id e (removed_frame now S P))%nat ↔ e ∈ ids (removed_rows S P).
Proof. by rewrite <- elem_of_ids_count, ids_removed_frame. Qed.

Lemma count_changed_frame e now S P :
  (0 < count_id e (changed_frame now S P))%nat ↔ e ∈ ids (changed_rows S P).
Proof. by rewrite <- elem_of_ids_count, ids_changed_frame. Qed.

(** The rows of one entity come from one frame at most. *)
Lemma frames_count_exclusive e t1 t2 t3 S P :
  let n := count_id e (new_frame t1 S P) in
  let t := count_id e (removed_frame t2 S P) in
  let c := count_id e (changed_frame t3 S P) in
  (n = 0 ∧ t = 0)%nat ∨ (n = 0 ∧ c = 0)%nat ∨ (t = 0 ∧ c = 0)%nat.
Proof.
  intros n t c.
  pose proof (selections_disjoint S P e) as (H1 & H2 & H3).
  pose proof (count_new_frame e t1 S P) as Hn.
  pose proof (count_removed_frame e t2 S P) as Ht.
  pose proof (count_changed_frame e t3 S P) as Hc.
  fold n in Hn. fold t in Ht. fold c in Hc.
  destruct (decide (0 < n)%nat) as [Hn'|Hn'].
  - right; right. apply Hn in Hn'. split.
    + destruct (decide (0 < t)%nat) as [Ht'%Ht|?]; [by destruct (H1 Hn')|lia].
    + destruct (decide (0 < c)%nat) as [Hc'%Hc|?]; [by destruct (H2 Hn')|lia].
  - destruct (decide (0 < t)%nat) as [Ht'%Ht|Ht'].
    + right; left. split; [lia|].
      destruct (decide (0 < c)%nat) as [Hc'%Hc|?]; [by destruct (H3 Ht')|lia].
    + left. lia.
Qed.

Lemma appended_count_le_1 csv c t1 t2 t3 st e :
  let out := update_months_data csv c t1 t2 t3 st in
  (count_id e (appended st out.2) ≤ 1)%nat.
Proof.
  cbv zeta.
  pose proof (frames_count_exclusive e t1 t2 t3 (snapshot csv c) (prior (db st) c)) as Hx.
  cbv zeta in Hx.
  destruct (run_appended csv c t1 t2 t3 st)
    as [(_ & H1 & H2 & H3 & ->)|[(_ & _ & ->)|[(_ & H1 & _ & ->)|(_ & H1 & H2 & _ & ->)]]];
    rewrite ?count_id_app, ?count_id_nil;
    try apply (accepted_count _ _ _ e) in H1;
    try apply (accepted_count _ _ _ e) in H2;
    try apply (accepted_count _ _ _ e) in H3;
    unfold new_frame, removed_frame, changed_frame in *; lia.
Qed.

Lemma appended_count_le csv c t1 t2 t3 st e :
  let S := snapshot csv c in
  let P := prior (db st) c in
  let out := update_months_data csv c t1 t2 t3 st in
  (count_id e (appended st out.2) ≤
     count_id e (new_frame t1 S P) + count_id e (removed_frame t2 S P) +
     count_id e (changed_frame t3 S P))%nat.
Proof.
  cbv zeta.
  destruct (run_appended csv c t1 t2 t3 st)
    as [(_ & _ & _ & _ & ->)|[(_ & _ & ->)|[(_ & _ & _ & ->)|(_ & _ & _ & _ & ->)]]];
    rewrite ?count_id_app, ?count_id_nil; lia.
Qed.

Lemma appended_elem_of csv c t1 t2 t3 st r :
  let S := snapshot csv c in
  let P := prior (db st) c in
  let out := update_months_data csv c t1 t2 t3 st in
  r ∈ appended st out.2 →
  r ∈ new_frame t1 S P ∨ r ∈ removed_frame t2 S P ∨ r ∈ changed_frame t3 S P.
Proof.
  cbv zeta.
  destruct (run_appended csv c t1 t2 t3 st)
    as [(_ & _ & _ & _ & ->)|[(_ & _ & ->)|[(_ & _ & _ & ->)|(_ & _ & _ & _ & ->)]]];
    rewrite ?elem_of_app; [tauto| |tauto|tauto].
  by intros ?%elem_of_nil.
Qed.

Lemma appended_Ok csv c t1 t2 t3 st :
  let S := snapshot csv c in
  let P := prior (db st) c in
  let out := update_months_data csv c t1 t2 t3 st in
  out.1 = Ok () →
  appended st out.2 = new_frame t1 S P ++ removed_frame t2 S P ++ changed_frame t3 S P.
Proof.
  cbv zeta. intros Hok.
  destruct (run_appended csv c t1 t2 t3 st)
    as [(_ & _ & _ & _ & ->)|[(? & _)|[(? & _)|(? & _)]]]; [done|congruence..].
Qed.

Lemma unchanged_appends_nothing csv c t1 t2 t3 st e :
  let S := snapshot csv c in
  let P := prior (db st) c in
  let out := update_months_data csv c t1 t2 t3 st in
  disposition S P e = UNCHANGED → count_id e (appended st out.2) = 0%nat.
Proof.
  intros S P out (Hn & Ht & Hc)%disposition_UNCHANGED.
  pose proof (appended_count_le csv c t1 t2 t3 st e) as Hle. cbv zeta in Hle.
  fold S P out in Hle.
  rewrite <- (count_new_frame e t1) in Hn.
  rewrite <- (count_removed_frame e t2) in Ht.
  rewrite <- (count_changed_frame e t3) in Hc. lia.
Qed.

Lemma prior_received_after table c r :
  r ∈ prior table c →
  (∃ r0, r0 ∈ table ∧ r = stored_row r0) ∧ received_after c r.
Proof.
  unfold prior. intros Hr%resolved_subseteq.
  apply list_elem_of_fmap in Hr as (r0 & -> & Hr).
  apply list_elem_of_filter in Hr as [? ?]. split; [eauto|done].
Qed.

Lemma elem_of_new_frame now S P r :
  r ∈ new_frame now S P →
  update_stamp r = Some now ∧ complaint_id r ∈ ids (new_rows S P) ∧
  ∃ s, s ∈ S ∧ r = set_update_stamp now s.
Proof.
  unfold new_frame. intros (s & -> & Hs)%list_elem_of_fmap.
  split_and!; [done| |].
  - apply elem_of_ids. eauto.
  - exists s. split; [|done]. unfold new_rows in Hs.
    by apply list_elem_of_filter in Hs as [_ ?].
Qed.

Lemma elem_of_removed_frame now S P r :
  r ∈ removed_frame now S P →
  update_stamp r = Some now ∧ complaint_id r ∈ ids (removed_rows S P) ∧
  fields r = ∅ ∧ ∃ p, p ∈ P ∧ date_received r = date_received p.
Proof.
  unfold removed_frame.
  intros (? & -> & (p & -> & Hp)%list_elem_of_fmap)%list_elem_of_fmap.
  split_and!; [done| |done|].
  - apply elem_of_ids. eauto.
  - exists p. split; [|done]. unfold removed_rows in Hp.
    rewrite !list_elem_of_filter in Hp. tauto.
Qed.

Lemma elem_of_changed_frame now S P r :
  r ∈ changed_frame now S P →
  update_stamp r = Some now ∧ complaint_id r ∈ ids (changed_rows S P) ∧
  ∃ s, s ∈ S ∧ r = set_update_stamp now s.
Proof.
  unfold changed_frame. intros (s & -> & Hs)%list_elem_of_fmap.
  split_and!; [done| |].
  - apply elem_of_ids. eauto.
  - exists s. split; [|done]. unfold changed_rows, known_rows in Hs.
    rewrite !list_elem_of_filter in Hs. tauto.
Qed.

(** C5: every entity gets one disposition, since no entity is selected by
    two of the stages (NEW, REMOVED and CHANGED are the entities selected by
    save_new_entries, delete_disappeared_entries and update_changed_entries,
    UNCHANGED those selected by none), and a run appends at most one row per
    entity, none for an UNCHANGED entity. *)
Theorem one_disposition_one_row (csv : list (list Row)) (c t1 t2 t3 : Z)
    (st : State) (e : Z) :
  let S := snapshot csv c in
  let P := prior (db st) c in
  let out := update_months_data csv c t1 t2 t3 st in
  (disposition S P e = NEW ↔ e ∈ ids (new_rows S P)) ∧
  (disposition S P e = REMOVED ↔ e ∈ ids (removed_rows S P)) ∧
  (disposition S P e = CHANGED ↔ e ∈ ids (changed_rows S P)) ∧
  (disposition S P e = UNCHANGED ↔
     (e ∉ ids (new_rows S P)) ∧ (e ∉ ids (removed_rows S P)) ∧
     (e ∉ ids (changed_rows S P))) ∧
  (count_id e (appended st out.2) ≤ 1)%nat ∧
  (disposition S P e = UNCHANGED → count_id e (appended st out.2) = 0%nat).
Proof.
  intros S P out. split_and!.
  - apply disposition_NEW.
  - apply disposition_REMOVED.
  - apply disposition_CHANGED.
  - apply disposition_UNCHANGED.
  - apply appended_count_le_1.
  - apply unchanged_appends_nothing.
Qed.

Lemma one_disposition_one_row_witness :
  disposition (snapshot ex_csv 5) (prior ex_table 5) 6 = UNCHANGED ∧
  count_id 6 (appended (initial ex_table) ex_run.2) = 0%nat.
Proof.
  assert (disposition (snapshot ex_csv 5) (prior ex_table 5) 6 = UNCHANGED) as Hd
    by (by vm_compute).
  split; [done|].
  exact (proj2 (proj2 (proj2 (proj2 (proj2
    (one_disposition_one_row ex_csv 5 100 101 102 (initial ex_table) 6))))) Hd).
Defined.

(** ** Tombstones *)

(** C6: an entity whose resolved prior row is a tombstone and which is absent
    from the snapshot is UNCHANGED, and the run appends no row for it. *)
Theorem tombstoned_and_absent_stays_silent (csv : list (list Row))
    (c t1 t2 t3 : Z) (st : State) (e : Z) (p : Row) :
  let S := snapshot csv c in
  let P := prior (db st) c in
  let out := update_months_data csv c t1 t2 t3 st in
  filter (λ r, complaint_id r = e) P = [p] → fields p = ∅ → e ∉ ids S →
  disposition S P e = UNCHANGED ∧ count_id e (appended st out.2) = 0%nat.
Proof.
  intros S P out Hp Htomb HS.
  assert (disposition S P e = UNCHANGED) as Hd.
  { apply disposition_UNCHANGED. split_and!.
    - rewrite ids_new_rows. tauto.
    - rewrite ids_removed_rows. intros (r & Hr & He & _ & Hprod).
      assert (r ∈ filter (λ r, complaint_id r = e) P) as Hin
        by (by apply list_elem_of_filter).
      rewrite Hp in Hin. apply list_elem_of_singleton in Hin as ->.
      unfold has_product in Hprod. rewrite Htomb, lookup_empty in Hprod.
      by destruct Hprod.
    - rewrite ids_changed_rows. tauto. }
  split; [done|]. by apply unchanged_appends_nothing.
Qed.

Lemma tombstoned_and_absent_stays_silent_witness :
  disposition (snapshot ex_csv 5) (prior ex_table 5) 5 = UNCHANGED ∧
  count_id 5 (appended (initial ex_table) ex_run.2) = 0%nat.
Proof.
  apply (tombstoned_and_absent_stays_silent ex_csv 5 100 101 102 (initial ex_table) 5
           (mkRow 5 (Some 13) (Some 2) ∅)).
  - by vm_compute.
  - reflexivity.
  - apply (bool_decide_unpack _). by vm_compute.
Defined.

(** C8: the row appended for a REMOVED entity has no business field, and its
    complaint_id, date_received and update_stamp are set; a run that does not
    raise appends exactly one such row. *)
Theorem removed_row_is_tombstone (csv : list (list Row)) (c t1 t2 t3 : Z)
    (st : State) (e : Z) :
  let S := snapshot csv c in
  let P := prior (db st) c in
  let out := update_months_data csv c t1 t2 t3 st in
  disposition S P e = REMOVED →
  (∀ r, r ∈ appended st out.2 → complaint_id r = e →
     fields r = ∅ ∧ is_Some (date_received r) ∧ update_stamp r = Some t2) ∧
  (out.1 = Ok () → count_id e (appended st out.2) = 1%nat).
Proof.
  intros S P out Hd%disposition_REMOVED.
  pose proof (selections_disjoint S P e) as (Hnt & _ & Htc).
  split.
  - intros r Hr He.
    destruct (appended_elem_of csv c t1 t2 t3 st r Hr) as [Hin|[Hin|Hin]].
    + apply elem_of_new_frame in Hin as (_ & Hin & _). rewrite He in Hin.
      by destruct (Hnt Hin).
    + apply elem_of_removed_frame in Hin as (? & _ & ? & p & Hp & Hdate).
      split_and!; [done| |done].
      apply prior_received_after in Hp as [_ Hp]. rewrite Hdate.
      unfold received_after in Hp. by destruct (date_received p).
    + apply elem_of_changed_frame in Hin as (_ & Hin & _). rewrite He in Hin.
      by destruct (Htc Hd).
  - intros Hok.
    pose proof (appended_count_le_1 csv c t1 t2 t3 st e) as Hle. cbv zeta in Hle.
    unfold out in *.
    rewrite (appended_Ok csv c t1 t2 t3 st Hok) in Hle |- *. fold S P in Hle |- *.
    apply (count_removed_frame e t2) in Hd.
    rewrite !count_id_app in *. lia.
Qed.

Lemma removed_row_is_tombstone_witness :
  disposition (snapshot ex_csv 5) (prior ex_table 5) 2 = REMOVED ∧
  ex_run.1 = Ok () ∧ count_id 2 (appended (initial ex_table) ex_run.2) = 1%nat.
Proof.
  assert (disposition (snapshot ex_csv 5) (prior ex_table 5) 2 = REMOVED) as Hd
    by (by vm_compute).
  assert (ex_run.1 = Ok ()) as Hok by (by vm_compute).
  split_and!; [done..|].
  exact (proj2 (removed_row_is_tombstone ex_csv 5 100 101 102 (initial ex_table) 2 Hd) Hok).
Defined.

(** ** Stamps of a run *)

(** C3, as stated, fails: in the run on [ex_table] and [ex_csv] the stage
    that saves new complaints stamps its row 100, the stage that marks
    deleted ones stamps 101 and the stage that updates changed ones 102. *)
Lemma stages_stamp_separately :
  ex_run.1 = Ok () ∧
  update_stamp <$> appended (initial ex_table) ex_run.2 =
    [Some 100; Some 101; Some 102; Some 102].
Proof. split; by vm_compute. Qed.

(** C3, amended: every row that a run appends carries the clock reading of
    the stage that appended it, one reading per stage: the rows of NEW
    entities carry the reading of save_new_entries, those of REMOVED
    entities the reading of delete_disappeared_entries, those of CHANGED
    entities the reading of update_changed_entries. *)
Theorem appended_row_carries_stage_stamp (csv : list (list Row))
    (c t1 t2 t3 : Z) (st : State) (r : Row) :
  let S := snapshot csv c in
  let P := prior (db st) c in
  let out := update_months_data csv c t1 t2 t3 st in
  r ∈ appended st out.2 →
  (disposition S P (complaint_id r) = NEW ∧ update_stamp r = Some t1) ∨
  (disposition S P (complaint_id r) = REMOVED ∧ update_stamp r = Some t2) ∨
  (disposition S P (complaint_id r) = CHANGED ∧ update_stamp r = Some t3).
Proof.
  intros S P out Hr.
  destruct (appended_elem_of csv c t1 t2 t3 st r Hr) as [Hin|[Hin|Hin]].
  - apply elem_of_new_frame in Hin as (? & ?%disposition_NEW & _). by left.
  - apply elem_of_removed_frame in Hin as (? & ?%disposition_REMOVED & _).
    right; by left.
  - apply elem_of_changed_frame in Hin as (? & ?%disposition_CHANGED & _).
    right; by right.
Qed.

Lemma appended_row_carries_stage_stamp_witness :
  let r := mkRow 2 (Some 11) (Some 101) ∅ in
  r ∈ appended (initial ex_table) ex_run.2 ∧
  ((disposition (snapshot ex_csv 5) (prior ex_table 5) 2 = NEW ∧
      update_stamp r = Some 100) ∨
   (disposition (snapshot ex_csv 5) (prior ex_table 5) 2 = REMOVED ∧
      update_stamp r = Some 101) ∨
   (disposition (snapshot ex_csv 5) (prior ex_table 5) 2 = CHANGED ∧
      update_stamp r = Some 102)).
Proof.
  intros r.
  assert (r ∈ appended (initial ex_table) ex_run.2) as Hr
    by (apply (bool_decide_unpack _); by vm_compute).
  split; [done|].
  exact (appended_row_carries_stage_stamp ex_csv 5 100 101 102 (initial ex_table) r Hr).
Defined.

(** ** A refused append *)

Ltac state_simpl :=
  unfold with_already_saved, with_was_removed;
  cbn [fst snd db new_entries entries_from_db rows frame_of stdout
       already_saved was_removed].

Lemma update_months_data_stdout csv c t1 t2 t3 st :
  let out := update_months_data csv c t1 t2 t3 st in
  ∃ k, stdout out.2 = stdout st ++ take k stage_lines.
Proof.
  unfold update_months_data, get_entries_received_after_chosen_datetime.
  run_stage. rewrite !save_new_entries_run. state_simpl.
  set (S := read_new_entries csv c).
  set (P := leave_only_last_update_in_df (stored_row <$> filter (received_after c) (db st))).
  set (N := set_update_stamp t1 <$> new_rows S P).
  destruct (decide (insert_ok (db st) N)) as [H1|H1]; cycle 1.
  { rewrite !to_sql_refuse by exact H1. state_simpl. by exists 1%nat. }
  rewrite !to_sql_accept by exact H1. run_stage.
  rewrite !delete_disappeared_entries_run. state_simpl.
  set (T := set_update_stamp t2 <$> (id_and_date_only <$> removed_rows S P)).
  destruct (decide (insert_ok (db st ++ N) T)) as [H2|H2]; cycle 1.
  { rewrite !to_sql_refuse by exact H2. state_simpl.
    exists 2%nat. by rewrite <- !app_assoc. }
  rewrite !to_sql_accept by exact H2. run_stage.
  rewrite !update_changed_entries_run by done. state_simpl.
  set (C := set_update_stamp t3 <$> changed_rows S P).
  destruct (decide (insert_ok ((db st ++ N) ++ T) C)) as [H3|H3].
  - rewrite !to_sql_accept by exact H3. state_simpl.
    exists 3%nat. by rewrite <- !app_assoc.
  - rewrite !to_sql_refuse by exact H3. state_simpl.
    exists 3%nat. by rewrite <- !app_assoc.
Qed.

Lemma main_update_run csv c t1 t2 t3 st :
  let out := update_months_data csv c t1 t2 t3
               (print "Updating last month's complaints info" st).2 in
  main_update csv c t1 t2 t3 st =
    match out.1 with
    | Ok _ => print "All data for last month is updated!" out.2
    | Raised e => print (error_message e) out.2
    end.
Proof.
  unfold main_update. rewrite !bind_run.
  change (print "Updating last month's complaints info" st)
    with (Ok (), (print "Updating last month's complaints info" st).2).
  cbv beta iota. rewrite bind_run.
  destruct (update_months_data csv c t1 t2 t3 _) as [[[]|e] st']; done.
Qed.

Lemma run_table_prefix table S P t1 t2 t3 :
  table `prefix_of` (run_table table S P t1 t2 t3).2.
Proof.
  unfold run_table. repeat case_decide; cbn [snd];
    repeat apply prefix_app_r; done.
Qed.

(** C9: when an append is refused for a duplicate key, the run raises the
    error to its caller and the table holds the rows of the stages before the
    refused one and nothing else: neither a row of the refused frame nor a
    row of a later stage; the table before the run is a prefix of the table
    after it, so no stored row was overwritten; the main block prints the
    error and not its line of success. *)
Theorem integrity_error_aborts_run (csv : list (list Row)) (c t1 t2 t3 : Z)
    (st : State) :
  let S := snapshot csv c in
  let P := prior (db st) c in
  let N := new_frame t1 S P in
  let T := removed_frame t2 S P in
  let C := changed_frame t3 S P in
  let out := update_months_data csv c t1 t2 t3 st in
  let fin := main_update csv c t1 t2 t3 st in
  ((¬ insert_ok (db st) N → out.1 = Raised IntegrityError ∧ db out.2 = db st) ∧
   (insert_ok (db st) N → ¬ insert_ok (db st ++ N) T →
      out.1 = Raised IntegrityError ∧ db out.2 = db st ++ N) ∧
   (insert_ok (db st) N → insert_ok (db st ++ N) T →
      ¬ insert_ok ((db st ++ N) ++ T) C →
      out.1 = Raised IntegrityError ∧ db out.2 = (db st ++ N) ++ T)) ∧
  db st `prefix_of` db out.2 ∧
  (out.1 = Raised IntegrityError →
     fin.1 = Ok () ∧ db fin.2 = db out.2 ∧
     ∃ k, stdout fin.2 =
            (stdout st ++ ["Updating last month's complaints info"]) ++
            take k stage_lines ++ [error_message IntegrityError]).
Proof.
  intros S P N T C out fin.
  pose proof (update_months_data_run csv c t1 t2 t3 st) as Hrun.
  cbv zeta in Hrun. fold out S P in Hrun.
  split_and!.
  - intros H1. unfold run_table in Hrun. fold N in Hrun.
    rewrite decide_False in Hrun by done. by injection Hrun.
  - intros H1 H2. unfold run_table in Hrun. fold N T in Hrun.
    rewrite decide_True, decide_False in Hrun by done. by injection Hrun.
  - intros H1 H2 H3. unfold run_table in Hrun. fold N T C in Hrun.
    rewrite !decide_True, decide_False in Hrun by done. by injection Hrun.
  - pose proof (run_table_prefix (db st) S P t1 t2 t3) as Hpre.
    rewrite <- Hrun in Hpre. done.
  - intros Hraised. unfold fin. rewrite main_update_run. cbv zeta.
    set (st1 := (print "Updating last month's complaints info" st).2).
    pose proof (update_months_data_run csv c t1 t2 t3 st1) as Hrun1.
    pose proof (update_months_data_stdout csv c t1 t2 t3 st1) as [k Hk].
    cbv zeta in Hrun1. change (db st1) with (db st) in Hrun1.
    fold S P in Hrun1. rewrite <- Hrun in Hrun1.
    injection Hrun1 as Hres Hdb. rewrite Hres, Hraised.
    unfold print. cbn [fst snd db stdout].
    split_and!; [done..|]. exists k. rewrite Hk.
    change (stdout st1) with (stdout st ++ ["Updating last month's complaints info"]).
    by rewrite <- !app_assoc.
Qed.

Lemma integrity_error_aborts_run_witness :
  let doubled := [[mkRow 4 (Some 15) None ∅; mkRow 4 (Some 15) None ∅]] in
  let out := update_months_data doubled 5 100 101 102 (initial ex_table) in
  ¬ insert_ok ex_table (new_frame 100 (snapshot doubled 5) (prior ex_table 5)) ∧
  out.1 = Raised IntegrityError ∧ db out.2 = ex_table.
Proof.
  intros doubled out.
  assert (¬ insert_ok ex_table
            (new_frame 100 (snapshot doubled 5) (prior ex_table 5))) as Hno
    by (apply (bool_decide_unpack _); by vm_compute).
  split; [done|].
  exact (proj1 (proj1 (integrity_error_aborts_run doubled 5 100 101 102
                         (initial ex_table))) Hno).
Defined.

(** ** The columns that the stages leave on the dataframes *)

(** C10: save_new_entries leaves the column already_saved on the dataframe
    new_entries it was given, and delete_disappeared_entries leaves the
    column was_removed on entries_from_db, whether or not their append is
    accepted; update_changed_entries reads both: on a dataframe without
    already_saved, or without was_removed, it raises KeyError, and once both
    stages ran on the same dataframes it raises no KeyError and appends the
    rows of the changed entities. *)
Theorem stages_communicate_through_columns (now now' now'' : Z) (st : State) :
  let S := rows (new_entries st) in
  let P := rows (entries_from_db st) in
  new_entries (save_new_entries now st).2 =
    mkDataFrame S (Some (isin (ids P) (ids S))) (was_removed (new_entries st)) ∧
  entries_from_db (save_new_entries now st).2 = entries_from_db st ∧
  entries_from_db (delete_disappeared_entries now st).2 =
    mkDataFrame P (already_saved (entries_from_db st))
      (Some (negb <$> isin (ids S) (ids P))) ∧
  new_entries (delete_disappeared_entries now st).2 = new_entries st ∧
  (already_saved (new_entries st) = None →
     update_changed_entries now st = (Raised (KeyError "already_saved"), st)) ∧
  (is_Some (already_saved (new_entries st)) →
   was_removed (entries_from_db st) = None →
     update_changed_entries now st = (Raised (KeyError "was_removed"), st)) ∧
  (∀ st1 st2,
     save_new_entries now st = (Ok (), st1) →
     delete_disappeared_entries now' st1 = (Ok (), st2) →
     update_changed_entries now'' st2 = to_sql (changed_frame now'' S P) st2).
Proof.
  intros S P. split_and!.
  - rewrite save_new_entries_run. unfold to_sql. by case_decide.
  - rewrite save_new_entries_run. unfold to_sql. by case_decide.
  - rewrite delete_disappeared_entries_run. unfold to_sql. by case_decide.
  - rewrite delete_disappeared_entries_run. unfold to_sql. by case_decide.
  - intros Hnone. unfold update_changed_entries. run_stage.
    rewrite Hnone. by run_stage.
  - intros [saved Hsaved] Hnone. unfold update_changed_entries. run_stage.
    rewrite Hsaved. run_stage. rewrite Hnone. by run_stage.
  - intros st1 st2. rewrite save_new_entries_run. unfold to_sql at 1.
    case_decide; [|done]. intros [= <-].
    rewrite delete_disappeared_entries_run. unfold to_sql at 1.
    case_decide; [|done]. intros [= <-].
    by rewrite update_changed_entries_run.
Qed.

Lemma stages_communicate_through_columns_witness :
  already_saved (new_entries (initial ex_table)) = None ∧
  update_changed_entries 102 (initial ex_table) =
    (Raised (KeyError "already_saved"), initial ex_table).
Proof.
  split; [reflexivity|].
  exact (proj1 (proj2 (proj2 (proj2 (proj2
    (stages_communicate_through_columns 102 102 102 (initial ex_table))))))
    eq_refl).
Defined.

(** ** Entities in both the snapshot and the prior set *)

Lemma rows_of_absent e df : e ∉ ids df → filter (λ r, complaint_id r = e) df = [].
Proof.
  intros He. apply filter_none. intros r Hr Hid. apply He, elem_of_ids. eauto.
Qed.

Lemma rows_of_present e df r :
  filter (λ r, complaint_id r = e) df = [r] → r ∈ df ∧ complaint_id r = e.
Proof.
  intros Hf. assert (r ∈ filter (λ r, complaint_id r = e) df) as Hr
    by (rewrite Hf; by left).
  apply list_elem_of_filter in Hr. tauto.
Qed.


Lemma rows_of_known_rows e S P :
  filter (λ r, complaint_id r = e) (known_rows S P) =
    if decide (e ∈ ids P) then filter (λ r, complaint_id r = e) S else [].
Proof.
  unfold known_rows. rewrite list_filter_filter. case_decide.
  - apply filter_ext_elem. intros r _. split; [tauto|]. by intros ->.
  - apply filter_none. intros r _ [<- ?]. done.
Qed.

Lemma rows_of_kept_rows e S P :
  filter (λ r, complaint_id r = e) (kept_rows S P) =
    if decide (e ∈ ids S) then filter (λ r, complaint_id r = e) P else [].
Proof.
  unfold kept_rows. rewrite list_filter_filter. case_decide.
  - apply filter_ext_elem. intros r _. split; [tauto|]. by intros ->.
  - apply filter_none. intros r _ [<- ?]. done.
Qed.

Lemma rows_of_compared_rows e S P :
  filter (λ r, complaint_id r = e) (compared_rows S P) =
    without_update_stamp <$>
      (filter (λ r, complaint_id r = e) (known_rows S P) ++
       filter (λ r, complaint_id r = e) (kept_rows S P)).
Proof.
  unfold compared_rows. rewrite filter_fmap_comm, filter_app. done.
Qed.

Lemma count_row_by_id r df :
  count_row r df = count_row r (filter (λ x, complaint_id x = complaint_id r) df).
Proof.
  unfold count_row. rewrite list_filter_filter. f_equal.
  apply list_filter_iff. intros x. split; [by intros ->|tauto].
Qed.

Lemma elem_of_updated_row_ids e S P :
  e ∈ updated_row_ids S P ↔
    ∃ x, x ∈ filter (λ r, complaint_id r = e) (compared_rows S P) ∧
         count_row x (filter (λ r, complaint_id r = e) (compared_rows S P)) = 1%nat.
Proof.
  unfold updated_row_ids, drop_duplicates.
  rewrite elem_of_list_to_set, elem_of_ids. split.
  - intros (x & [Hc Hx]%list_elem_of_filter & <-). exists x.
    rewrite <- count_row_by_id. split; [by apply list_elem_of_filter|done].
  - intros (x & [<- Hx]%list_elem_of_filter & Hc). exists x.
    rewrite <- count_row_by_id in Hc. split; [by apply list_elem_of_filter|done].
Qed.

(** With one row on each side, the entity is updated exactly when the two
    rows differ on a column other than update_stamp. *)
Lemma updated_row_ids_single e S P s p :
  filter (λ r, complaint_id r = e) S = [s] →
  filter (λ r, complaint_id r = e) P = [p] →
  e ∈ updated_row_ids S P ↔ without_update_stamp s ≠ without_update_stamp p.
Proof.
  intros HS HP.
  destruct (rows_of_present e S s HS) as [HsS Hse].
  destruct (rows_of_present e P p HP) as [HpP Hpe].
  rewrite elem_of_updated_row_ids, rows_of_compared_rows.
  rewrite rows_of_known_rows, rows_of_kept_rows.
  rewrite !decide_True by (apply elem_of_ids; eauto).
  rewrite HS, HP. cbn [app fmap list_fmap]. unfold count_row.
  split.
  - intros (x & Hx & Hc) Heq. rewrite <- Heq in Hx, Hc.
    rewrite !elem_of_cons, elem_of_nil in Hx.
    assert (x = without_update_stamp s) as -> by tauto.
    rewrite !filter_cons_True in Hc by done. cbn in Hc. lia.
  - intros Hne. exists (without_update_stamp s). split; [by left|].
    rewrite filter_cons_True, filter_cons_False by done. done.
Qed.

Lemma rows_of_changed_rows e S P :
  filter (λ r, complaint_id r = e) (changed_rows S P) =
    if decide (e ∈ updated_row_ids S P)
    then filter (λ r, complaint_id r = e) (known_rows S P) else [].
Proof.
  unfold changed_rows. rewrite list_filter_filter. case_decide.
  - apply filter_ext_elem. intros r _. split; [tauto|]. by intros ->.
  - apply filter_none. intros r _ [<- ?]. done.
Qed.

Lemma without_update_stamp_eq s p :
  without_update_stamp s = without_update_stamp p ↔
    complaint_id s = complaint_id p ∧ date_received s = date_received p ∧
    fields s = fields p.
Proof.
  unfold without_update_stamp. split.
  - intros [= ? ? ?]. done.
  - intros (-> & -> & ->). done.
Qed.

Lemma changed_single csv c t1 t2 t3 st e s p :
  let S := snapshot csv c in
  let P := prior (db st) c in
  let out := update_months_data csv c t1 t2 t3 st in
  filter (λ r, complaint_id r = e) S = [s] →
  filter (λ r, complaint_id r = e) P = [p] →
  without_update_stamp s ≠ without_update_stamp p →
  disposition S P e = CHANGED ∧
  (out.1 = Ok () →
     filter (λ r, complaint_id r = e) (appended st out.2) = [set_update_stamp t3 s]).
Proof.
  intros S P out HS HP Hne.
  destruct (rows_of_present e S s HS) as [HsS Hse].
  destruct (rows_of_present e P p HP) as [HpP Hpe].
  assert (e ∈ ids S) as HeS by (apply elem_of_ids; eauto).
  assert (e ∈ ids P) as HeP by (apply elem_of_ids; eauto).
  assert (e ∈ updated_row_ids S P) as Hup by (by apply (updated_row_ids_single e S P s p)).
  assert (e ∈ ids (changed_rows S P)) as Hch by (by apply ids_changed_rows).
  split; [by apply disposition_CHANGED|].
  intros Hok. unfold out. rewrite (appended_Ok csv c t1 t2 t3 st Hok). fold S P.
  pose proof (selections_disjoint S P e) as (_ & Hn & Ht).
  rewrite !filter_app.
  rewrite (rows_of_absent e (new_frame t1 S P)) by (rewrite ids_new_frame; tauto).
  rewrite (rows_of_absent e (removed_frame t2 S P)) by (rewrite ids_removed_frame; tauto).
  unfold changed_frame. rewrite filter_fmap_comm. cbn [app complaint_id set_update_stamp].
  rewrite rows_of_changed_rows, decide_True by done.
  rewrite rows_of_known_rows, decide_True by done. by rewrite HS.
Qed.




(** C7, as stated, fails: complaint 3 is tombstoned in [ex_table] and present
    in [ex_csv]; save_new_entries does not select it, so it is not NEW: it is
    CHANGED, and its row carries the stamp of update_changed_entries. *)
Lemma reappearing_entity_is_not_new :
  filter (λ r, complaint_id r = 3) (prior ex_table 5) = [mkRow 3 (Some 12) (Some 2) ∅] ∧
  3 ∈ ids (snapshot ex_csv 5) ∧
  disposition (snapshot ex_csv 5) (prior ex_table 5) 3 ≠ NEW ∧
  filter (λ r, complaint_id r = 3) (appended (initial ex_table) ex_run.2) =
    [mkRow 3 (Some 12) (Some 102) (ex_payload "Card" "Reopened")].
Proof.
  split_and!; [by vm_compute| | |by vm_compute].
  - apply (bool_decide_unpack _). by vm_compute.
  - apply (bool_decide_unpack _). by vm_compute.
Qed.

(** C7, amended: an entity whose resolved prior row is a tombstone and which
    is present in the snapshot with a row [s] that has at least one business
    field is CHANGED (update_changed_entries selects it, save_new_entries
    does not), and a run that does not raise appends for it exactly the row
    [s], with its full payload, under the stamp of update_changed_entries. *)
Theorem reappearing_entity_is_changed (csv : list (list Row)) (c t1 t2 t3 : Z)
    (st : State) (e : Z) (s p : Row) :
  let S := snapshot csv c in
  let P := prior (db st) c in
  let out := update_months_data csv c t1 t2 t3 st in
  filter (λ r, complaint_id r = e) S = [s] →
  filter (λ r, complaint_id r = e) P = [p] →
  fields p = ∅ → fields s ≠ ∅ →
  disposition S P e = CHANGED ∧
  (out.1 = Ok () →
     filter (λ r, complaint_id r = e) (appended st out.2) =
       [mkRow e (date_received s) (Some t3) (fields s)]).
Proof.
  intros S P out HS HP Htomb Hfull.
  destruct (rows_of_present e S s HS) as [_ Hse].
  replace (mkRow e (date_received s) (Some t3) (fields s))
    with (set_update_stamp t3 s) by (unfold set_update_stamp; by rewrite Hse).
  apply (changed_single csv c t1 t2 t3 st e s p HS HP).
  rewrite without_update_stamp_eq. intros (_ & _ & Hf). congruence.
Qed.

Lemma reappearing_entity_is_changed_witness :
  let s := mkRow 3 (Some 12) None (ex_payload "Card" "Reopened") in
  let p := mkRow 3 (Some 12) (Some 2) ∅ in
  filter (λ r, complaint_id r = 3) (snapshot ex_csv 5) = [s] ∧
  filter (λ r, complaint_id r = 3) (prior ex_table 5) = [p] ∧
  fields p = ∅ ∧ fields s ≠ ∅ ∧
  disposition (snapshot ex_csv 5) (prior ex_table 5) 3 = CHANGED.
Proof.
  intros s p.
  assert (filter (λ r, complaint_id r = 3) (snapshot ex_csv 5) = [s]) as HS
    by (by vm_compute).
  assert (filter (λ r, complaint_id r = 3) (prior ex_table 5) = [p]) as HP
    by (by vm_compute).
  assert (fields s ≠ ∅) as Hfull by (apply (bool_decide_unpack _); by vm_compute).
  split_and!; [done..|].
  exact (proj1 (reappearing_entity_is_changed ex_csv 5 100 101 102
                  (initial ex_table) 3 s p HS HP eq_refl Hfull)).
Defined.

(** ** A run on a table that respects its key *)

Lemma NoDup_ids_filter (Q : Row → Prop) `{!∀ r, Decision (Q r)} df :
  NoDup (ids df) → NoDup (ids (filter Q df)).
Proof.
  intros Hnd. eapply sublist_NoDup; [exact Hnd|].
  unfold ids. by apply fmap_sublist, sublist_filter.
Qed.

Lemma insert_ok_fresh table now df :
  NoDup (ids df) →
  (∀ r, r ∈ table → update_stamp r = Some now → complaint_id r ∉ ids df) →
  insert_ok table (set_update_stamp now <$> df).
Proof.
  intros Hnd Hfresh. split_and!.
  - apply Forall_forall. intros r (s & -> & _)%list_elem_of_fmap. by eexists.
  - rewrite pk_set_update_stamp. apply NoDup_fmap_2; [|done].
    intros x y [= ->]. done.
  - apply Forall_forall. intros r (s & -> & Hs)%list_elem_of_fmap.
    intros (r' & [= Hid Hst] & Hr')%list_elem_of_fmap.
    apply (Hfresh r' Hr'); [done|]. rewrite <- Hid. apply elem_of_ids. eauto.
Qed.

Lemma table_ok_app table df :
  table_ok table → insert_ok table df → table_ok (table ++ df).
Proof.
  intros [Hs Hnd] (Hs' & Hnd' & Hfresh). split.
  - by apply Forall_app.
  - rewrite fmap_app. apply NoDup_app. split_and!; [done| |done].
    intros k Hk (r & -> & Hr)%list_elem_of_fmap.
    by apply (proj1 (Forall_forall _ _) Hfresh r Hr).
Qed.

Lemma stamps_before_elem now table r t :
  stamps_before now table → r ∈ table → update_stamp r = Some t → t < now.
Proof.
  intros Hb Hr Ht. by apply (proj1 (Forall_forall _ _) Hb r Hr).
Qed.

Lemma snapshot_received_after csv c r :
  r ∈ snapshot csv c → received_after c r.
Proof.
  unfold snapshot, read_new_entries.
  rewrite (foldl_append (λ chunk, filter (received_after c) chunk)).
  cbn [app]. intros (chunk & Hr & _)%list_elem_of_bind.
  by apply list_elem_of_filter in Hr as [? _].
Qed.




Lemma table_ok_stored df : table_ok df → table_ok (stored_row <$> df).
Proof.
  intros [Hs Hnd]. split.
  - by apply Forall_fmap.
  - by rewrite <- list_fmap_compose.
Qed.


Lemma NoDup_ids_prior table c : table_ok table → NoDup (ids (prior table c)).
Proof.
  intros Hok. apply NoDup_ids_resolved. by apply table_ok_stored, table_ok_filter.
Qed.


(** ** Latest rows of a table that grew *)








(** ** Rows that the table gives back as they were written *)






(** ** The run after a run

    [table] is the table before the first run, which appends its three
    frames; the prior set of the second run is resolved from the table that
    holds them.  No row of the snapshot holds a float, so the table gives
    the appended rows back as they were written. *)

Section second_run.
Context (csv : list (list Row)) (c t1 t2 t3 : Z) (table : list Row).
Context (Hok : table_ok table) (HS : NoDup (ids (snapshot csv c))).
Context (Hfree : Forall float_free (snapshot csv c)).
Context (Ht1 : stamps_before t1 table) (Ht2 : stamps_before t2 table)
        (Ht3 : stamps_before t3 table).

Local Abbreviation S := (snapshot csv c).
Local Abbreviation P1 := (prior table c).
Local Abbreviation N := (new_frame t1 S P1).
Local Abbreviation T := (removed_frame t2 S P1).
Local Abbreviation C := (changed_frame t3 S P1).
Local Abbreviation A := (N ++ T ++ C).
Local Abbreviation W0 := (stored_row <$> filter (received_after c) table).
Local Abbreviation P2 := (prior (table ++ A) c).




















End second_run.

Lemma insert_ok_nil table : insert_ok table [].
Proof. split_and!; [constructor|apply NoDup_nil_2|constructor]. Qed.





(** * Further properties of the update path *)

(** ** The resolver on any frame *)

Lemma count_row_filter_le (Q : Row → Prop) `{!∀ r, Decision (Q r)} r df :
  (count_row r (filter Q df) ≤ count_row r df)%nat.
Proof.
  unfold count_row. induction df as [|x df IH]; [done|].
  rewrite (filter_cons Q). destruct (decide (Q x)).
  - rewrite !(filter_cons (λ r', r' = r)). case_decide; cbn [length]; lia.
  - rewrite (filter_cons (λ r', r' = r)). case_decide; cbn [length]; lia.
Qed.

Lemma resolved_NoDup_ids df : NoDup (ids df) → leave_only_last_update_in_df df = df.
Proof.
  intros Hnd. rewrite leave_only_last_update_in_df_app.
  assert ((list_to_set (ids (mask_rows (duplicated (ids df)) df)) : gset Z) = ∅) as ->.
  { apply set_eq. intros e. rewrite elem_of_non_unique_ids_set.
    pose proof (NoDup_ids_count e df Hnd). split; [lia|]. by intros ?%not_elem_of_empty. }
  rewrite elements_empty. cbn. rewrite app_nil_r.
  unfold drop_duplicates_complaint_id. apply filter_all. intros r Hr.
  pose proof (NoDup_ids_count (complaint_id r) df Hnd).
  assert (complaint_id r ∈ ids df) as ?%elem_of_ids_count by (apply elem_of_ids; eauto).
  lia.
Qed.

(** X1: the resolver returns rows of its input only, and no row more often
    than the input holds it. *)
Theorem leave_only_last_update_in_df_sub (df : list Row) (r : Row) :
  (count_row r (leave_only_last_update_in_df df) ≤ count_row r df)%nat.
Proof.
  rewrite (count_row_by_id r (leave_only_last_update_in_df df)).
  rewrite rows_of_leave_only_last_update_in_df.
  rewrite (count_row_by_id r df).
  case_decide; [done|]. unfold latest_rows. apply count_row_filter_le.
Qed.

(** X2: a frame with one row per complaint_id comes back unchanged, in the
    same order; hence resolving what the resolver returned for a table that
    respects its primary key changes nothing. *)
Theorem leave_only_last_update_in_df_fixpoint (df : list Row) :
  (NoDup (ids df) → leave_only_last_update_in_df df = df) ∧
  (table_ok df →
     leave_only_last_update_in_df (leave_only_last_update_in_df df) =
       leave_only_last_update_in_df df).
Proof.
  split; [apply resolved_NoDup_ids|].
  intros Hok. by apply resolved_NoDup_ids, NoDup_ids_resolved.
Qed.

Lemma leave_only_last_update_in_df_fixpoint_witness :
  table_ok ex_table ∧
  leave_only_last_update_in_df (leave_only_last_update_in_df ex_table) =
    leave_only_last_update_in_df ex_table.
Proof.
  assert (table_ok ex_table) as Hok by (apply (bool_decide_unpack _); by vm_compute).
  split; [done|].
  exact (proj2 (leave_only_last_update_in_df_fixpoint ex_table) Hok).
Defined.

Lemma stamp_max_all_null df :
  (∀ r, r ∈ df → update_stamp r = None) → stamp_max df = None.
Proof.
  induction df as [|x df IH]; intros Hnull; [done|].
  cbn [stamp_max foldr]. fold (stamp_max df).
  rewrite (Hnull x) by (by left). apply IH. intros r Hr. apply Hnull. by right.
Qed.

(** X3: rows without update_stamp: a complaint with several rows, none of
    which has an update_stamp, disappears from the result, because no row
    equals the missing maximum; a complaint with a single row keeps it, with
    or without update_stamp. *)
Theorem leave_only_last_update_in_df_null_stamps (df : list Row) (e : Z) :
  ((2 ≤ count_id e df)%nat →
   (∀ r, r ∈ df → complaint_id r = e → update_stamp r = None) →
   e ∉ ids (leave_only_last_update_in_df df)) ∧
  (count_id e df = 1%nat →
   filter (λ r, complaint_id r = e) (leave_only_last_update_in_df df) =
     filter (λ r, complaint_id r = e) df).
Proof.
  split.
  - intros Hc Hnull (r & Hr & Hid)%elem_of_ids.
    assert (r ∈ filter (λ r, complaint_id r = e) (leave_only_last_update_in_df df))
      as Hin by (by apply list_elem_of_filter).
    rewrite rows_of_leave_only_last_update_in_df, decide_False in Hin by lia.
    unfold latest_rows in Hin. rewrite stamp_max_all_null in Hin.
    + apply list_elem_of_filter in Hin as [Heq _].
      by destruct (update_stamp r).
    + intros x [? ?]%list_elem_of_filter. by apply Hnull.
  - intros Hc. rewrite rows_of_leave_only_last_update_in_df. by rewrite decide_True.
Qed.

Lemma leave_only_last_update_in_df_null_stamps_witness :
  let df := [mkRow 7 (Some 10) None ∅; mkRow 7 (Some 11) None ∅] in
  (2 ≤ count_id 7 df)%nat ∧ 7 ∉ ids (leave_only_last_update_in_df df).
Proof.
  intros df.
  assert (2 ≤ count_id 7 df)%nat as Hc by (apply (bool_decide_unpack _); by vm_compute).
  split; [done|].
  apply (proj1 (leave_only_last_update_in_df_null_stamps df 7) Hc).
  intros r Hr _. unfold df in Hr.
  rewrite !elem_of_cons, elem_of_nil in Hr. by destruct Hr as [->|[->|[]]].
Defined.

(** ** The table across a run *)

Lemma run_table_ok table S P t1 t2 t3 :
  table_ok table → table_ok (run_table table S P t1 t2 t3).2.
Proof.
  intros Hok. unfold run_table. repeat case_decide; cbn [snd];
    repeat apply table_ok_app; done.
Qed.

Lemma main_update_db csv c t1 t2 t3 st :
  (main_update csv c t1 t2 t3 st).1 = Ok () ∧
  db (main_update csv c t1 t2 t3 st).2 = db (update_months_data csv c t1 t2 t3 st).2.
Proof.
  rewrite main_update_run. cbv zeta.
  set (st1 := (print "Updating last month's complaints info" st).2).
  pose proof (update_months_data_run csv c t1 t2 t3 st1) as Hrun1.
  pose proof (update_months_data_run csv c t1 t2 t3 st) as Hrun.
  cbv zeta in Hrun1, Hrun. change (db st1) with (db st) in Hrun1.
  rewrite <- Hrun in Hrun1. injection Hrun1 as Hres Hdb.
  destruct (update_months_data csv c t1 t2 t3 st1).1 as [[]|e]; by rewrite <- Hdb.
Qed.

(** X4: a run on a table that respects its primary key leaves a table that
    respects it, whatever the csv, the cutoff and the clock readings, and
    whether or not an append was refused; the same holds for the main block. *)
Theorem update_months_data_keeps_primary_key (csv : list (list Row))
    (c t1 t2 t3 : Z) (st : State) :
  table_ok (db st) →
  table_ok (db (update_months_data csv c t1 t2 t3 st).2) ∧
  table_ok (db (main_update csv c t1 t2 t3 st).2).
Proof.
  intros Hok.
  assert (table_ok (db (update_months_data csv c t1 t2 t3 st).2)) as Hrun.
  { pose proof (update_months_data_run csv c t1 t2 t3 st) as Hrun. cbv zeta in Hrun.
    pose proof (run_table_ok (db st) (snapshot csv c) (prior (db st) c) t1 t2 t3 Hok)
      as Hout.
    rewrite <- Hrun in Hout. done. }
  split; [done|].
  by rewrite (proj2 (main_update_db csv c t1 t2 t3 st)).
Qed.

Lemma update_months_data_keeps_primary_key_witness :
  table_ok ex_table ∧ table_ok (db ex_run.2).
Proof.
  assert (table_ok ex_table) as Hok by (apply (bool_decide_unpack _); by vm_compute).
  split; [done|].
  exact (proj1 (update_months_data_keeps_primary_key ex_csv 5 100 101 102
                  (initial ex_table) Hok)).
Defined.

(** X6: every row that a run appends carries a date_received, and a row
    that it appends for a complaint of the snapshot lies in the window of
    the csv: its date_received is later than the cutoff. *)
Theorem appended_row_is_dated (csv : list (list Row)) (c t1 t2 t3 : Z)
    (st : State) (r : Row) :
  let out := update_months_data csv c t1 t2 t3 st in
  r ∈ appended st out.2 →
  ∃ d, date_received r = Some d ∧ (complaint_id r ∈ ids (snapshot csv c) → c < d).
Proof.
  intros out Hr.
  destruct (appended_elem_of csv c t1 t2 t3 st r Hr) as [Hin|[Hin|Hin]].
  - apply elem_of_new_frame in Hin as (_ & _ & s & Hs & ->).
    apply (snapshot_received_after csv) in Hs. unfold received_after in Hs.
    cbn. destruct (date_received s) as [d|]; [eauto|done].
  - apply elem_of_removed_frame in Hin as (_ & Hid & _ & p & Hp & ->).
    apply ids_removed_rows in Hid as (_ & _ & _ & HnS & _).
    apply prior_received_after in Hp as [_ Hp]. unfold received_after in Hp.
    destruct (date_received p) as [d|]; [|done]. exists d. split; [done|].
    by intros ?.
  - apply elem_of_changed_frame in Hin as (_ & _ & s & Hs & ->).
    apply (snapshot_received_after csv) in Hs. unfold received_after in Hs.
    cbn. destruct (date_received s) as [d|]; [eauto|done].
Qed.

Lemma appended_row_is_dated_witness :
  let r := mkRow 1 (Some 10) (Some 102) (ex_payload "Mortgage" "Closed") in
  r ∈ appended (initial ex_table) ex_run.2 ∧
  ∃ d, date_received r = Some d ∧ (complaint_id r ∈ ids (snapshot ex_csv 5) → 5 < d).
Proof.
  intros r.
  assert (r ∈ appended (initial ex_table) ex_run.2) as Hr
    by (apply (bool_decide_unpack _); by vm_compute).
  split; [done|].
  exact (appended_row_is_dated ex_csv 5 100 101 102 (initial ex_table) r Hr).
Defined.

(** ** Entities on one side only *)

Lemma rows_of_new_rows e S P :
  filter (λ r, complaint_id r = e) (new_rows S P) =
    if decide (e ∈ ids P) then [] else filter (λ r, complaint_id r = e) S.
Proof.
  unfold new_rows. rewrite list_filter_filter. case_decide.
  - apply filter_none. intros r _ [<- ?]. done.
  - apply filter_ext_elem. intros r _. split; [tauto|]. by intros ->.
Qed.

Lemma rows_of_removed_rows e S P :
  filter (λ r, complaint_id r = e) (removed_rows S P) =
    if decide (e ∈ ids S) then []
    else filter has_product (filter (λ r, complaint_id r = e) P).
Proof.
  unfold removed_rows. rewrite !list_filter_filter. case_decide.
  - apply filter_none. intros r _ [[<- _] ?]. done.
  - apply filter_ext_elem. intros r _.
    split; [tauto|]. intros [? ->]. done.
Qed.

Lemma run_Ok_appended csv c t1 t2 t3 st e :
  let S := snapshot csv c in
  let P := prior (db st) c in
  let out := update_months_data csv c t1 t2 t3 st in
  out.1 = Ok () →
  filter (λ r, complaint_id r = e) (appended st out.2) =
    (set_update_stamp t1 <$> filter (λ r, complaint_id r = e) (new_rows S P)) ++
    (set_update_stamp t2 <$> (id_and_date_only <$>
       filter (λ r, complaint_id r = e) (removed_rows S P))) ++
    (set_update_stamp t3 <$> filter (λ r, complaint_id r = e) (changed_rows S P)).
Proof.
  cbv zeta. intros Hok. rewrite (appended_Ok csv c t1 t2 t3 st Hok).
  unfold new_frame, removed_frame, changed_frame.
  by rewrite !filter_app, !filter_fmap_comm.
Qed.

(** X7: an entity with one row [s] in the snapshot and no row in the resolved
    prior set is NEW, and a run that does not raise appends for it exactly
    the row [s] under the stamp of save_new_entries. *)
Theorem new_entity_is_saved (csv : list (list Row)) (c t1 t2 t3 : Z)
    (st : State) (e : Z) (s : Row) :
  let S := snapshot csv c in
  let P := prior (db st) c in
  let out := update_months_data csv c t1 t2 t3 st in
  filter (λ r, complaint_id r = e) S = [s] → e ∉ ids P →
  disposition S P e = NEW ∧
  (out.1 = Ok () →
     filter (λ r, complaint_id r = e) (appended st out.2) =
       [mkRow e (date_received s) (Some t1) (fields s)]).
Proof.
  intros S P out HS HP.
  destruct (rows_of_present e S s HS) as [HsS Hse].
  assert (e ∈ ids (new_rows S P)) as Hnew
    by (apply ids_new_rows; split; [apply elem_of_ids; eauto|done]).
  split; [by apply disposition_NEW|].
  intros Hok. unfold out. rewrite (run_Ok_appended csv c t1 t2 t3 st e Hok).
  fold S P. pose proof (selections_disjoint S P e) as (Hr & Hc & _).
  rewrite rows_of_new_rows, decide_False, HS by done.
  rewrite (rows_of_absent e (removed_rows S P)) by auto.
  rewrite (rows_of_absent e (changed_rows S P)) by auto.
  cbn. unfold set_update_stamp. by rewrite Hse.
Qed.

Lemma new_entity_is_saved_witness :
  let s := mkRow 4 (Some 15) None (ex_payload "Card" "Fees") in
  filter (λ r, complaint_id r = 4) (snapshot ex_csv 5) = [s] ∧
  (4 ∉ ids (prior ex_table 5)) ∧
  disposition (snapshot ex_csv 5) (prior ex_table 5) 4 = NEW.
Proof.
  intros s.
  assert (filter (λ r, complaint_id r = 4) (snapshot ex_csv 5) = [s]) as HS
    by (by vm_compute).
  assert (4 ∉ ids (prior ex_table 5)) as HP
    by (apply (bool_decide_unpack _); by vm_compute).
  split_and!; [done..|].
  exact (proj1 (new_entity_is_saved ex_csv 5 100 101 102 (initial ex_table) 4 s HS HP)).
Defined.

(** X8: whether an entity that left the snapshot is marked as removed depends
    on the product column of its resolved prior row alone: without a product
    the entity is UNCHANGED and nothing is appended, whatever its other
    business fields hold; with a product it is REMOVED, and a run that does
    not raise appends for it exactly one row, with the complaint_id and
    date_received of the prior row, the stamp of delete_disappeared_entries
    and no business field. *)
Theorem removal_is_decided_by_product (csv : list (list Row)) (c t1 t2 t3 : Z)
    (st : State) (e : Z) (p : Row) :
  let S := snapshot csv c in
  let P := prior (db st) c in
  let out := update_months_data csv c t1 t2 t3 st in
  filter (λ r, complaint_id r = e) P = [p] → e ∉ ids S →
  (fields p !! "product" = None →
     disposition S P e = UNCHANGED ∧ count_id e (appended st out.2) = 0%nat) ∧
  (is_Some (fields p !! "product") →
     disposition S P e = REMOVED ∧
     (out.1 = Ok () →
        filter (λ r, complaint_id r = e) (appended st out.2) =
          [mkRow e (date_received p) (Some t2) ∅])).
Proof.
  intros S P out HP HS.
  destruct (rows_of_present e P p HP) as [HpP Hpe].
  split.
  - intros Hnull.
    assert (disposition S P e = UNCHANGED) as Hd.
    { apply disposition_UNCHANGED. split_and!.
      - rewrite ids_new_rows. tauto.
      - rewrite ids_removed_rows. intros (r & Hr & He & _ & Hprod).
        assert (r ∈ filter (λ r, complaint_id r = e) P) as Hin
          by (by apply list_elem_of_filter).
        rewrite HP in Hin. apply list_elem_of_singleton in Hin as ->.
        unfold has_product in Hprod. rewrite Hnull in Hprod. by destruct Hprod.
      - rewrite ids_changed_rows. tauto. }
    split; [done|]. by apply unchanged_appends_nothing.
  - intros Hprod.
    assert (e ∈ ids (removed_rows S P)) as Hrem
      by (apply ids_removed_rows; exists p; done).
    split; [by apply disposition_REMOVED|].
    intros Hok. unfold out. rewrite (run_Ok_appended csv c t1 t2 t3 st e Hok).
    fold S P. pose proof (selections_disjoint S P e) as (Hr & _ & Hc).
    rewrite (rows_of_absent e (new_rows S P)) by (intros ?; by apply (Hr H)).
    rewrite (rows_of_absent e (changed_rows S P)) by auto.
    rewrite rows_of_removed_rows, decide_False, HP by done.
    rewrite filter_cons_True by done. cbn.
    unfold set_update_stamp, id_and_date_only. cbn. by rewrite Hpe.
Qed.

Lemma removal_is_decided_by_product_witness :
  let half := mkRow 2 (Some 11) (Some 1) {[ "issue" := CText "Rate" ]} in
  let out := update_months_data [] 5 100 101 102 (initial [half]) in
  filter (λ r, complaint_id r = 2) (prior [half] 5) = [half] ∧
  (2 ∉ ids (snapshot [] 5)) ∧ fields half !! "product" = None ∧
  disposition (snapshot [] 5) (prior [half] 5) 2 = UNCHANGED ∧
  count_id 2 (appended (initial [half]) out.2) = 0%nat.
Proof.
  intros half out.
  assert (filter (λ r, complaint_id r = 2) (prior [half] 5) = [half]) as HP
    by (by vm_compute).
  assert (2 ∉ ids (snapshot [] 5)) as HS by apply not_elem_of_nil.
  assert (fields half !! "product" = None) as Hnull by (by vm_compute).
  split_and!; [done..| |];
    apply (proj1 (removal_is_decided_by_product [] 5 100 101 102 (initial [half])
                    2 half HP HS) Hnull).
Defined.

(** ** Repeated and missing complaints *)

Lemma count_id_new_rows e S P :
  e ∉ ids P → count_id e (new_rows S P) = count_id e S.
Proof.
  intros HP. unfold count_id. by rewrite rows_of_new_rows, decide_False.
Qed.

(** X9: a csv that lists a complaint twice which has no row in the resolved
    prior set makes save_new_entries hand two rows with one key to the table:
    the append is refused, the run raises and the table is left as it was. *)
Theorem repeated_new_complaint_refuses_run (csv : list (list Row))
    (c t1 t2 t3 : Z) (st : State) (e : Z) :
  let S := snapshot csv c in
  let P := prior (db st) c in
  let out := update_months_data csv c t1 t2 t3 st in
  (2 ≤ count_id e S)%nat → e ∉ ids P →
  out.1 = Raised IntegrityError ∧ db out.2 = db st.
Proof.
  intros S P out Hc HP.
  assert (¬ insert_ok (db st) (new_frame t1 S P)) as Hno.
  { intros Hok%insert_ok_NoDup_ids.
    pose proof (NoDup_ids_count e _ Hok) as Hle.
    rewrite count_id_new_rows in Hle by done. fold S in Hle. lia. }
  pose proof (update_months_data_run csv c t1 t2 t3 st) as Hrun.
  cbv zeta in Hrun. fold out S P in Hrun. unfold run_table in Hrun.
  rewrite decide_False in Hrun by done. by injection Hrun.
Qed.

Lemma repeated_new_complaint_refuses_run_witness :
  let doubled := [[mkRow 4 (Some 15) None ∅]; [mkRow 4 (Some 16) None ∅]] in
  let out := update_months_data doubled 5 100 101 102 (initial ex_table) in
  (2 ≤ count_id 4 (snapshot doubled 5))%nat ∧ (4 ∉ ids (prior ex_table 5)) ∧
  out.1 = Raised IntegrityError ∧ db out.2 = ex_table.
Proof.
  intros doubled out.
  assert (2 ≤ count_id 4 (snapshot doubled 5))%nat as Hc
    by (apply (bool_decide_unpack _); by vm_compute).
  assert (4 ∉ ids (prior ex_table 5)) as HP
    by (apply (bool_decide_unpack _); by vm_compute).
  split_and!; [done..| |];
    apply (repeated_new_complaint_refuses_run doubled 5 100 101 102
             (initial ex_table) 4 Hc HP).
Defined.

Lemma changed_rows_nil_l P : changed_rows [] P = [].
Proof. done. Qed.


(** X10: when no row of the csv lies in the window, the run saves and updates
    nothing and marks every resolved prior row that has a product as removed:
    on a table that respects its key, with a clock reading later than the
    stored stamps, it does not raise and appends one stamped row without
    business fields for each of them. *)
Theorem empty_snapshot_removes_window (csv : list (list Row)) (c t1 t2 t3 : Z)
    (st : State) :
  let P := prior (db st) c in
  let out := update_months_data csv c t1 t2 t3 st in
  snapshot csv c = [] → table_ok (db st) → stamps_before t2 (db st) →
  out.1 = Ok () ∧
  appended st out.2 =
    (λ p, mkRow (complaint_id p) (date_received p) (Some t2) ∅) <$>
      filter has_product P.
Proof.
  intros P out HS Hok Ht2.
  pose proof (update_months_data_run csv c t1 t2 t3 st) as Hrun.
  cbv zeta in Hrun. fold out P in Hrun. rewrite HS in Hrun.
  unfold run_table, new_frame, removed_frame, changed_frame in Hrun.
  change (new_rows [] P) with (@nil Row) in Hrun.
  rewrite changed_rows_nil_l in Hrun.
  assert (removed_rows [] P = filter has_product P) as Hrem.
  { unfold removed_rows. f_equal. apply filter_all. intros r _. apply not_elem_of_nil. }
  rewrite Hrem in Hrun. cbn [fmap list_fmap] in Hrun. rewrite !app_nil_r in Hrun.
  assert (insert_ok (db st)
            (set_update_stamp t2 <$> (id_and_date_only <$> filter has_product P))) as HT.
  { apply insert_ok_fresh.
    - rewrite ids_fmap by done. by apply NoDup_ids_filter, NoDup_ids_prior.
    - intros r Hr Hst. pose proof (stamps_before_elem _ _ _ _ Ht2 Hr Hst). lia. }
  rewrite (decide_True (P := insert_ok (db st) [])) in Hrun by apply insert_ok_nil.
  rewrite decide_True in Hrun by done.
  rewrite decide_True in Hrun by apply insert_ok_nil.
  injection Hrun as Hres Hdb. split; [done|].
  rewrite (appended_app st out.2 _ Hdb). by rewrite <- list_fmap_compose.
Qed.

Lemma empty_snapshot_removes_window_witness :
  let out := update_months_data [] 5 100 101 102 (initial ex_table) in
  snapshot [] 5 = [] ∧ table_ok ex_table ∧ stamps_before 101 ex_table ∧
  out.1 = Ok ().
Proof.
  intros out.
  assert (table_ok ex_table) as Hok by (apply (bool_decide_unpack _); by vm_compute).
  assert (stamps_before 101 ex_table) as Hb.
  { unfold stamps_before, ex_table.
    repeat (apply Forall_cons; split; [cbn; intros t [= <-]; lia|]).
    apply Forall_nil_2. }
  split_and!; [done..|].
  exact (proj1 (empty_snapshot_removes_window [] 5 100 101 102 (initial ex_table)
                  eq_refl Hok Hb)).
Defined.



(** * Column names *)

Ltac ascii_cases a :=
  destruct a as [[] [] [] [] [] [] [] []].

Lemma lower_char_not_upper a : is_upper (lower_char a) = false.
Proof. ascii_cases a; reflexivity. Qed.

Lemma lower_char_space a : lower_char a = " "%char → a = " "%char.
Proof. ascii_cases a; intros H; first [reflexivity | discriminate H]. Qed.

Lemma lower_char_not_upper_id a : is_upper a = false → lower_char a = a.
Proof. intros H. unfold lower_char. by rewrite H. Qed.

Lemma replace_char_free old new s : old ≠ new → free_of old (replace_char old new s).
Proof.
  intros Hne. unfold free_of. induction s as [|a s IH]; [constructor|].
  cbn. constructor; [|done]. case_decide; congruence.
Qed.

Lemma replace_char_id old new s : free_of old s → replace_char old new s = s.
Proof.
  unfold free_of. induction s as [|a s IH]; [done|].
  cbn. intros [Ha Hs]%Forall_cons. rewrite decide_False by done. by rewrite IH.
Qed.

Lemma remove_char_free old s : free_of old (remove_char old s).
Proof.
  unfold free_of. induction s as [|a s IH]; [constructor|].
  cbn. case_decide; [done|]. cbn. by constructor.
Qed.

Lemma remove_char_id old s : free_of old s → remove_char old s = s.
Proof.
  unfold free_of. induction s as [|a s IH]; [done|].
  cbn. intros [Ha Hs]%Forall_cons. rewrite decide_False by done. by rewrite IH.
Qed.

Lemma remove_char_Forall (Q : ascii → Prop) old s :
  Forall Q (String.list_ascii_of_string s) →
  Forall Q (String.list_ascii_of_string (remove_char old s)).
Proof.
  induction s as [|a s IH]; [done|].
  cbn. intros [Ha Hs]%Forall_cons. case_decide; [by apply IH|].
  cbn. constructor; [done|by apply IH].
Qed.

Lemma remove_char_length old s :
  (String.length (remove_char old s) ≤ String.length s)%nat.
Proof. induction s as [|a s IH]; [done|]. cbn. case_decide; cbn; lia. Qed.

Lemma lower_lower_case s : lower_case (lower s).
Proof.
  unfold lower_case. induction s as [|a s IH]; [constructor|].
  cbn. constructor; [apply lower_char_not_upper|done].
Qed.

Lemma lower_id s : lower_case s → lower s = s.
Proof.
  unfold lower_case. induction s as [|a s IH]; [done|].
  cbn. intros [Ha Hs]%Forall_cons. by rewrite lower_char_not_upper_id, IH.
Qed.

Lemma lower_free_of_space s : free_of " "%char s → free_of " "%char (lower s).
Proof.
  unfold free_of. induction s as [|a s IH]; [done|].
  cbn. intros [Ha Hs]%Forall_cons. constructor; [|by apply IH].
  intros ?%lower_char_space. done.
Qed.

Lemma lower_length s : String.length (lower s) = String.length s.
Proof. induction s as [|a s IH]; [done|]. cbn. by rewrite IH. Qed.

Lemma replace_char_length old new s :
  String.length (replace_char old new s) = String.length s.
Proof. induction s as [|a s IH]; [done|]. cbn. by rewrite IH. Qed.

Lemma new_column_name_shape elem :
  free_of " "%char (new_column_name elem) ∧ free_of "?"%char (new_column_name elem) ∧
  lower_case (new_column_name elem).
Proof.
  unfold new_column_name. split_and!.
  - apply remove_char_Forall, lower_free_of_space, replace_char_free. done.
  - apply remove_char_free.
  - apply remove_char_Forall, lower_lower_case.
Qed.

(** X12: the renamed form of a column name of ASCII characters holds no
    space, no question mark and no upper-case letter, is never longer than
    the name it comes from, and renaming it again leaves it as it is. *)
Theorem new_column_name_clean (elem : string) :
  ascii_only elem →
  free_of " "%char (new_column_name elem) ∧ free_of "?"%char (new_column_name elem) ∧
  lower_case (new_column_name elem) ∧
  (String.length (new_column_name elem) ≤ String.length elem)%nat ∧
  new_column_name (new_column_name elem) = new_column_name elem.
Proof.
  intros _.
  destruct (new_column_name_shape elem) as (Hspace & Hmark & Hlower).
  split_and!; [done..| |].
  - unfold new_column_name.
    pose proof (remove_char_length "?"%char (lower (replace_char " "%char "_"%char elem))).
    rewrite lower_length, replace_char_length in *. done.
  - unfold new_column_name at 1.
    by rewrite replace_char_id, lower_id, remove_char_id.
Qed.

Lemma new_column_name_clean_witness :
  let elem := "Consumer consent provided?" in
  ascii_only elem ∧ new_column_name elem = "consumer_consent_provided" ∧
  new_column_name (new_column_name elem) = new_column_name elem.
Proof.
  intros elem.
  assert (ascii_only elem) as Hascii by (apply (bool_decide_unpack _); by vm_compute).
  split_and!; [done|by vm_compute|].
  apply (new_column_name_clean elem Hascii).
Defined.

Lemma create_new_column_names_lookup_from (new_names : gmap string string)
    (column_names : list string) (elem : string) :
  foldl (λ new_names elem, <[elem := new_column_name elem]> new_names)
        new_names column_names !! elem =
    if decide (elem ∈ column_names) then Some (new_column_name elem)
    else new_names !! elem.
Proof.
  revert new_names. induction column_names as [|x l IH]; intros new_names.
  - cbn. rewrite decide_False; [done|apply not_elem_of_nil].
  - cbn [foldl]. rewrite IH. destruct (decide (elem ∈ l)) as [Hl|Hl].
    + rewrite decide_True; [done|by right].
    + destruct (decide (x = elem)) as [->|Hne].
      * rewrite lookup_insert_eq, decide_True; [done|by left].
      * rewrite lookup_insert_ne, decide_False; [done| |done].
        rewrite elem_of_cons. intros [?|?]; congruence.
Qed.

(** X13: the dictionary of create_new_column_names maps every name of the
    list to its renamed form and holds no other key, also when the list
    names a column twice. *)
Theorem create_new_column_names_lookup (column_names : list string) (elem : string) :
  create_new_column_names column_names !! elem =
    if decide (elem ∈ column_names) then Some (new_column_name elem) else None.
Proof.
  unfold create_new_column_names. rewrite create_new_column_names_lookup_from.
  by rewrite lookup_empty.
Qed.

(** * The statement that creates the table *)

Lemma string_app_assoc (s1 s2 s3 : string) : (s1 +:+ s2) +:+ s3 = s1 +:+ s2 +:+ s3.
Proof.
  induction s1 as [|a s1 IH]; [done|].
  change (String a ((s1 +:+ s2) +:+ s3) = String a (s1 +:+ s2 +:+ s3)).
  by rewrite IH.
Qed.

Lemma string_app_empty_r (s : string) : s +:+ EmptyString = s.
Proof.
  induction s as [|a s IH]; [done|].
  change (String a (s +:+ EmptyString) = String a s). by rewrite IH.
Qed.

Lemma foldl_column_line creation_str column_infos :
  foldl (λ creation_str item, creation_str +:+ column_line item.1 item.2)
        creation_str column_infos =
    creation_str +:+ column_lines column_infos.
Proof.
  revert creation_str. induction column_infos as [|item l IH]; intros creation_str.
  - cbn. by rewrite string_app_empty_r.
  - cbn [foldl]. rewrite IH. unfold column_lines. cbn [foldr].
    by rewrite string_app_assoc.
Qed.

Lemma prepare_table_creation_string_lines column_infos :
  prepare_table_creation_string column_infos =
    creation_head +:+ column_lines column_infos +:+ creation_tail.
Proof.
  unfold prepare_table_creation_string.
  by rewrite foldl_column_line, string_app_assoc.
Qed.

Lemma column_lines_app column_infos more :
  column_lines (column_infos ++ more) =
    column_lines column_infos +:+ column_lines more.
Proof.
  induction column_infos as [|item l IH]; [done|].
  unfold column_lines in *. cbn [app foldr]. by rewrite IH, string_app_assoc.
Qed.

(** X14: the statement of prepare_table_creation_string is its fixed head,
    then one line for each item of the dictionary, in its order, then the
    fixed tail that declares update_stamp and the compound primary key; two
    dictionaries laid end to end give the lines of the first followed by the
    lines of the second. *)
Theorem prepare_table_creation_string_layout (column_infos more : list (string * string)) :
  prepare_table_creation_string column_infos =
    creation_head +:+ column_lines column_infos +:+ creation_tail ∧
  prepare_table_creation_string (column_infos ++ more) =
    creation_head +:+ column_lines column_infos +:+ column_lines more +:+ creation_tail.
Proof.
  split; [apply prepare_table_creation_string_lines|].
  by rewrite prepare_table_creation_string_lines, column_lines_app, string_app_assoc.
Qed.

Lemma dict_set_fresh key value d :
  key ∉ d.*1 → dict_set key value d = d ++ [(key, value)].
Proof.
  induction d as [|item d IH]; [done|].
  rewrite fmap_cons, not_elem_of_cons. intros [Hne Hd].
  cbn [dict_set]. rewrite decide_False by done. by rewrite IH.
Qed.

Lemma column_infos_distinct (done_infos : list (string * string))
    (column_names_df : list (string * Dtype)) :
  NoDup (done_infos.*1 ++ column_names_df.*1) →
  foldl (λ column_infos column, dict_set column.1 (column_type column.2) column_infos)
        done_infos column_names_df =
    done_infos ++ ((λ column, (column.1, column_type column.2)) <$> column_names_df).
Proof.
  revert done_infos. induction column_names_df as [|col l IH]; intros done_infos Hnd.
  - cbn. by rewrite app_nil_r.
  - cbn [foldl]. rewrite fmap_cons in Hnd.
    assert (col.1 ∉ done_infos.*1) as Hfresh.
    { apply NoDup_app in Hnd as (_ & Hdis & _). intros Hin.
      apply (Hdis _ Hin). by left. }
    rewrite dict_set_fresh by done. rewrite IH.
    + rewrite fmap_cons. by rewrite <- app_assoc.
    + rewrite fmap_app, <- app_assoc. done.
Qed.

(** X15: for a dataframe whose column labels are distinct, the statement of
    create_main_table declares the columns in the order of the dataframe,
    each once, an integer column as INTEGER, a datetime column as TIMESTAMP
    and any other column as TEXT, and then update_stamp and the primary key. *)
Theorem create_main_table_layout (column_names_df : list (string * Dtype)) :
  NoDup column_names_df.*1 →
  create_main_table column_names_df =
    creation_head +:+
    column_lines ((λ column, (column.1, column_type column.2)) <$> column_names_df) +:+
    creation_tail.
Proof.
  intros Hnd. unfold create_main_table.
  rewrite (column_infos_distinct [] column_names_df) by done.
  apply prepare_table_creation_string_lines.
Qed.

Lemma create_main_table_layout_witness :
  let columns := [("date_received", datetime_dtype); ("zip_code", float_dtype);
                  ("complaint_id", int_dtype)] in
  NoDup columns.*1 ∧
  create_main_table columns =
    creation_head +:+
    column_lines [("date_received", "TIMESTAMP"); ("zip_code", "TEXT");
                  ("complaint_id", "INTEGER")] +:+
    creation_tail.
Proof.
  intros columns.
  assert (NoDup columns.*1) as Hnd by (apply (bool_decide_unpack _); by vm_compute).
  split; [done|].
  exact (create_main_table_layout columns Hnd).
Defined.

(** * The full load *)

Lemma load_full_data_chunks csv some_data_for_type_detection clock :
  load_full_data csv some_data_for_type_detection clock None =
    let out :=
      load_chunks clock 0 csv
        (print "Saving full history of complaints to the datatable. This process takes quite a while..."
           (initial [])).2 in
    (out.1, Some (db out.2)).
Proof. reflexivity. Qed.


Lemma load_chunks_table_ok clock reader i st :
  table_ok (db st) → table_ok (db (load_chunks clock i reader st).2).
Proof.
  revert i st. induction reader as [|chunk reader IH]; intros i st Hok; [done|].
  cbn [load_chunks]. rewrite bind_run.
  destruct (decide (insert_ok (db st) (set_update_stamp (clock i) <$> chunk)))
    as [Hin|Hno].
  - rewrite to_sql_accept by done. apply IH. cbn [db]. by apply table_ok_app.
  - by rewrite to_sql_refuse.
Qed.


(** X17: the table that the full load leaves on a database without the
    table respects the primary key, whether or not a chunk was refused. *)
Theorem load_full_data_keeps_primary_key (csv : list (list Row))
    (some_data_for_type_detection : list (string * Dtype)) (clock : nat → Z) :
  ∃ table,
    (load_full_data csv some_data_for_type_detection clock None).2 = Some table ∧
    table_ok table.
Proof.
  rewrite load_full_data_chunks. cbv zeta. eexists. split; [reflexivity|].
  apply load_chunks_table_ok. cbn. split; [constructor|apply NoDup_nil_2].
Qed.

(** X19: a run reads nothing but the table from the state it starts in: the
    dataframes and the columns that an earlier run left there are replaced
    before the first stage, so two states with the same table give the same
    result and the same table. *)
Theorem update_months_data_reads_table_only (csv : list (list Row))
    (c t1 t2 t3 : Z) (st st' : State) :
  db st = db st' →
  (update_months_data csv c t1 t2 t3 st).1 = (update_months_data csv c t1 t2 t3 st').1 ∧
  db (update_months_data csv c t1 t2 t3 st).2 =
    db (update_months_data csv c t1 t2 t3 st').2.
Proof.
  intros Hdb.
  pose proof (update_months_data_run csv c t1 t2 t3 st) as Hrun.
  pose proof (update_months_data_run csv c t1 t2 t3 st') as Hrun'.
  cbv zeta in Hrun, Hrun'. rewrite <- Hdb, <- Hrun in Hrun'.
  by injection Hrun'.
Qed.

Lemma update_months_data_reads_table_only_witness :
  db ex_run.2 = db (initial (db ex_run.2)) ∧
  (update_months_data ex_csv 5 200 201 202 ex_run.2).1 =
    (update_months_data ex_csv 5 200 201 202 (initial (db ex_run.2))).1.
Proof.
  split; [reflexivity|].
  exact (proj1 (update_months_data_reads_table_only ex_csv 5 200 201 202
                  ex_run.2 (initial (db ex_run.2)) eq_refl)).
Defined.
